(** * The analysis-task workflow of the backup-audit dashboard

    A shallow embedding of [frontend/src/utils/taskUtils.js]
    ([deriveTaskDisplayState]) and of the two effects of
    [frontend/src/pages/JobDetailsPage.jsx] (the start-up workflow and the
    polling interval), with the properties the specification states about
    them.

    Layout: the JavaScript values the two files handle ([Js]), the display
    derivation ([TaskUtils]), what React accepts as a child ([React]), the
    two components the page renders ([StatusLine], [InsightReport]), the page
    as an event-driven state machine ([JobDetailsPage]), the request
    interceptor its calls go through ([Api]), then the theorems. *)

From Stdlib Require Import Floats.
From stdpp Require Import gmap strings list fin_maps.

#[local] Set Warnings "-register-all".
#[local] Open Scope string_scope.
#[local] Open Scope list_scope.

(* ===================================================================== *)
(** ** JavaScript values *)
(* ===================================================================== *)

Module Js.

(** What an axios response body, a rejection reason or a [useState] cell can
    hold: the JSON values plus [undefined].  A number is an IEEE-754 double,
    an object is a finite map from property names to values. *)
Inductive value : Type :=
  | JUndefined
  | JNull
  | JBool (b : bool)
  | JNum (x : float)
  | JStr (s : string)
  | JArr (items : list value)
  | JObj (fields : gmap string value).

(** ToBoolean: [undefined], [null], [false], [+0], [-0], [NaN] and the empty
    string are falsy, everything else (every object and array) is truthy. *)
Definition truthy (v : value) : bool :=
  match v with
  | JUndefined | JNull => false
  | JBool b => b
  | JNum x => negb (PrimFloat.is_zero x || PrimFloat.is_nan x)
  | JStr s => negb (String.eqb s "")
  | JArr _ | JObj _ => true
  end.

(** [!v] *)
Definition falsy (v : value) : bool := negb (truthy v).

(** [v === undefined || v === null], the test behind [?.] *)
Definition nullish (v : value) : bool :=
  match v with
  | JUndefined | JNull => true
  | _ => false
  end.

(** Member access [v.k] for the property names the two files read ([id],
    [status], [task_type], [result], [triage_decision], [is_sufficient],
    [response], [data], [detail]).  An object yields its own property or
    [undefined]; strings, arrays, numbers and booleans own none of these
    names.  Every access in the embedded code is guarded so that [v] is not
    nullish there (a TypeError in JavaScript), hence the catch-all. *)
Definition get (v : value) (k : string) : value :=
  match v with
  | JObj fields => default JUndefined (fields !! k)
  | _ => JUndefined
  end.

(** Optional chaining [v?.k] *)
Definition opt_get (v : value) (k : string) : value :=
  if nullish v then JUndefined else get v k.

(** [a || b] *)
Definition or_else (a b : value) : value := if truthy a then a else b.

(** [v === 'lit'] against a string literal: no conversion takes place. *)
Definition is_string (v : value) (lit : string) : bool :=
  match v with
  | JStr s => String.eqb s lit
  | _ => false
  end.

(** [v === true], [v === false] *)
Definition is_bool (v : value) (lit : bool) : bool :=
  match v with
  | JBool b => Bool.eqb b lit
  | _ => false
  end.

End Js.

Import Js.

(* ===================================================================== *)
(** ** frontend/src/utils/taskUtils.js *)
(* ===================================================================== *)

Module TaskUtils.

(** The object literal [{ status, message }] the function returns. *)
Record display : Type := Display { status : string; message : string }.

Definition deriveTaskDisplayState (task : value) : display :=
  if falsy task then
    Display "initializing" "Creating analysis task..."
  else if is_string (get task "status") "finalized" then
    Display "success" "Analysis Complete!"
  else if is_string (get task "status") "failed" then
    Display "error" "Analysis Failed. Check agent logs."
  else
    let fallback := Display "loading" "Analysis in progress..." in
    if is_string (get task "task_type") "GET_JOB_DETAILS" then
      if is_string (get task "status") "pending"
         || is_string (get task "status") "processing" then
        Display "loading" "Requesting initial details from on-premises agent..."
      else if is_string (get task "status") "complete" then
        let triageDecision := opt_get (get task "result") "triage_decision" in
        if falsy triageDecision then
          Display "loading" "Initial data received. Performing AI triage..."
        else if is_bool (get triageDecision "is_sufficient") true then
          Display "loading" "Triage complete. Finalizing analysis..."
        else if is_bool (get triageDecision "is_sufficient") false then
          Display "loading" "Triage complete. Agent is now fetching detailed logs..."
        else fallback
      else fallback
    else fallback.

End TaskUtils.

Import TaskUtils.

(* ===================================================================== *)
(** ** What React renders *)
(* ===================================================================== *)

Module React.

(** A value placed between tags, [<span>{v}</span>].  [undefined], [null] and
    booleans render nothing, numbers and strings render as text, an array
    renders its items; a plain object makes React throw ("Objects are not
    valid as a React child").  No component of the repository catches such an
    error, so a render that throws unmounts the whole tree. *)
Fixpoint renderable (v : value) : bool :=
  match v with
  | JObj _ => false
  | JArr items => forallb renderable items
  | _ => true
  end.

End React.

Import React.

(* ===================================================================== *)
(** ** components/AnalysisStatus.jsx *)
(* ===================================================================== *)

Module StatusLine.

(** The four pictures the component can put before its text: the warning
    triangle of the polling-error branch, the checkmark, the cross and the
    [Spinner] component. *)
Inductive icon : Type := WarningIcon | CheckmarkIcon | CrossIcon | Spinner.

(** The [div] the component returns: the colour class of its [className],
    its icon and the content of its [span]. *)
Record line : Type := Line { colour : string; glyph : icon; text : value }.

(** The two closures over [status]; a [switch] compares with [===]. *)
Definition getStatusClasses (status : string) : string :=
  if String.eqb status "success" then "text-green-600"
  else if String.eqb status "error" then "text-red-600"
  else "text-blue-600".

Definition getIcon (status : string) : icon :=
  if String.eqb status "success" then CheckmarkIcon
  else if String.eqb status "error" then CrossIcon
  else Spinner.

Definition AnalysisStatus (task pollingError : value) : line :=
  if truthy pollingError then
    Line "text-yellow-600" WarningIcon pollingError
  else
    let d := deriveTaskDisplayState task in
    Line (getStatusClasses (status d)) (getIcon (status d)) (JStr (message d)).

End StatusLine.

Import StatusLine.

(* ===================================================================== *)
(** ** frontend/src/components/AIAnalysisResult.jsx *)
(* ===================================================================== *)

Module InsightReport.

(** What a call of the component does: it returns [null], it throws a
    TypeError, or it returns the report element.  The element is kept as the
    three values it is built from: [problem_summary] goes into a paragraph,
    the other two are cut into list items (the items are not modelled). *)
Inductive outcome : Type :=
  | Nothing
  | Throws
  | Sections (problem_summary : value) (probable_cause recommended_action : string).

(** [task?.status !== 'finalized' || !task.result?.ai_analysis] guards the
    report.  Past the guard [ai_analysis] is truthy, so the destructuring
    cannot fail, but [.split] exists on strings only: reading it off
    [undefined] or [null], or calling it on any other JSON value, throws. *)
Definition AIAnalysisResult (task : value) : outcome :=
  if negb (is_string (opt_get task "status") "finalized")
     || falsy (opt_get (get task "result") "ai_analysis")
  then Nothing
  else
    let ai_analysis := get (get task "result") "ai_analysis" in
    match get ai_analysis "probable_cause", get ai_analysis "recommended_action" with
    | JStr probable_cause, JStr recommended_action =>
        Sections (get ai_analysis "problem_summary") probable_cause recommended_action
    | _, _ => Throws
    end.

(** Whether React can render what the call returns: not when the call throws,
    and not when [problem_summary], the child of the paragraph, is an object.
    The list items are strings. *)
Definition report_renders (task : value) : bool :=
  match AIAnalysisResult task with
  | Nothing => true
  | Throws => false
  | Sections problem_summary _ _ => renderable problem_summary
  end.

End InsightReport.

Import InsightReport.

(* ===================================================================== *)
(** ** frontend/src/pages/JobDetailsPage.jsx *)
(* ===================================================================== *)

Module JobDetailsPage.

(** The five [useState] cells of the component. *)
Record hooks : Type := Hooks {
  job : value;
  task : value;
  isInitializing : bool;
  error : value;
  pollingError : value
}.

Definition setJob (v : value) (h : hooks) : hooks :=
  Hooks v (task h) (isInitializing h) (error h) (pollingError h).
Definition setTask (v : value) (h : hooks) : hooks :=
  Hooks (job h) v (isInitializing h) (error h) (pollingError h).
Definition setIsInitializing (b : bool) (h : hooks) : hooks :=
  Hooks (job h) (task h) b (error h) (pollingError h).
Definition setError (v : value) (h : hooks) : hooks :=
  Hooks (job h) (task h) (isInitializing h) v (pollingError h).
Definition setPollingError (v : value) (h : hooks) : hooks :=
  Hooks (job h) (task h) (isInitializing h) (error h) v.

(** [useState(null)] four times and [useState(true)]. *)
Definition initial_hooks : hooks := Hooks JNull JNull true JNull JNull.

(** Where [startAnalysisWorkflow] is suspended: at [await getJobById], at
    [await createAnalysisTask], or it has run to its end. *)
Inductive phase : Type := AwaitJob | AwaitCreate | Settled.

(** The mounted page.  Besides the cells it holds what the browser and the
    network hold for it: the interval armed by the polling effect (with the
    [task] its callback closed over), the point the start-up workflow has
    reached, and the [getTaskResult] requests still awaiting a response,
    each under the number of the tick that issued it and with the task id
    it asked for.  The two counters record how many poll and creation
    requests have been sent; the code does not read them. *)
Record page : Type := Page {
  cells : hooks;
  interval : option value;
  workflow : phase;
  in_flight : gmap nat value;
  polls_issued : nat;
  creations_issued : nat
}.

(** What can happen to a mounted page: a promise of the start-up workflow
    settles, the interval fires, or the promise of an earlier poll settles.
    A resolved promise carries the response body ([response.data]); a
    rejected [createAnalysisTask] or [getJobById] carries the fields of the
    error object axios rejects with. *)
Inductive event : Type :=
  | JobResolved (data : value)
  | JobRejected (err : gmap string value)
  | CreateResolved (data : value)
  | CreateRejected (err : gmap string value)
  | Tick
  | PollResolved (n : nat) (data : value)
  | PollRejected (n : nat) (err : value).

(** [task.status === 'finalized' || task.status === 'failed'] *)
Definition is_terminal (task : value) : bool :=
  is_string (get task "status") "finalized"
  || is_string (get task "status") "failed".

(** The polling effect, run by React after every render in which [task]
    changed (the clean-up of the previous run has cleared the previous
    interval by then): it arms no interval for a missing or terminal task,
    and otherwise one whose callback closes over [task].  A [setTask], the
    render it causes and this effect are taken as one step.  When [setTask]
    stores a primitive equal to the one already cached React skips the
    render; the interval then stays armed on that same value, which is what
    running the effect again yields. *)
Definition pollingEffect (task : value) : option value :=
  if falsy task || is_terminal task then None else Some task.

(** [setError(err.response?.data?.detail || "An error occurred.")] followed
    by the [finally] block. *)
Definition workflowFailed (err : gmap string value) (h : hooks) : hooks :=
  let detail := opt_get (opt_get (get (JObj err) "response") "data") "detail" in
  setIsInitializing false
    (setError (or_else detail (JStr "An error occurred.")) h).

Definition connectionLost : value :=
  JStr "Connection to the server was lost. Retrying...".

(** What a render of the component comes to: one of the three branches before
    the JSX, or an exception thrown while React renders the children. *)
Inductive view : Type :=
  | InitializingBanner
  | ErrorBox (error : value)
  | Details (job task pollingError : value)
  | RenderThrows.

(** The children of the details view: three fields of the job, the status
    line and the report.  The start time is a string whatever
    [job.start_time] holds ([new Date(x).toLocaleString()] does not throw on a
    JSON value). *)
Definition details_render (h : hooks) : bool :=
  renderable (opt_get (job h) "job_id")
  && renderable (opt_get (job h) "status")
  && renderable (opt_get (job h) "subclient")
  && renderable (text (AnalysisStatus (task h) (pollingError h)))
  && report_renders (task h).

(** The error box has [error] as a child. *)
Definition render (h : hooks) : view :=
  if isInitializing h then InitializingBanner
  else if truthy (error h) then
    if renderable (error h) then ErrorBox (error h) else RenderThrows
  else if details_render h then Details (job h) (task h) (pollingError h)
  else RenderThrows.

Definition throws (v : view) : bool :=
  match v with
  | RenderThrows => true
  | _ => false
  end.

(** The page after a render that threw: React has unmounted the tree, the
    clean-up of the polling effect has cleared the interval, and the setters
    of the unmounted component do nothing any more, so the answers still to
    come have no effect and are dropped.  The cells keep the state of the
    render that threw. *)
Definition unmounted (s : page) : page :=
  {| cells := cells s;
     interval := None;
     workflow := workflow s;
     in_flight := ∅;
     polls_issued := polls_issued s;
     creations_issued := creations_issued s |}.

(** The render that follows a state update. *)
Definition commit (s : page) : page :=
  if throws (render (cells s)) then unmounted s else s.

(** First render and first run of both effects: the workflow sets
    [isInitializing] and clears [error], then waits for [getJobById]; the
    polling effect sees [task === null].  The page is followed from here on
    the same [jobId], until a render throws or for as long as it stays
    mounted. *)
Definition mount : page :=
  {| cells := setError JNull (setIsInitializing true initial_hooks);
     interval := pollingEffect (task initial_hooks);
     workflow := AwaitJob;
     in_flight := ∅;
     polls_issued := 0;
     creations_issued := 0 |}.

(** One event.  [None] means the event cannot occur in that state, or has no
    effect on it (no interval is armed, no such request is outstanding, the
    page has been unmounted).  While the start-up workflow is pending the
    banner is all that is rendered; the first render of the error box or of
    the details view follows the event that settles the workflow, and may
    throw.  A tick and a rejected poll only change the polling error, a string
    or [null], so the render after them succeeds when the one before did.  A
    resolved poll only changes [task], on which the status line, which always
    renders, and the report depend. *)
Definition step (s : page) (e : event) : option page :=
  match e with
  | JobResolved data =>
      match workflow s with
      | AwaitJob =>
          Some {| cells := setJob data (cells s);
                  interval := interval s;
                  workflow := AwaitCreate;
                  in_flight := in_flight s;
                  polls_issued := polls_issued s;
                  creations_issued := S (creations_issued s) |}
      | _ => None
      end
  | JobRejected err =>
      match workflow s with
      | AwaitJob =>
          Some (commit
                  {| cells := workflowFailed err (cells s);
                     interval := interval s;
                     workflow := Settled;
                     in_flight := in_flight s;
                     polls_issued := polls_issued s;
                     creations_issued := creations_issued s |})
      | _ => None
      end
  | CreateResolved data =>
      match workflow s with
      | AwaitCreate =>
          Some (commit
                  {| cells := setIsInitializing false (setTask data (cells s));
                     interval := pollingEffect data;
                     workflow := Settled;
                     in_flight := in_flight s;
                     polls_issued := polls_issued s;
                     creations_issued := creations_issued s |})
      | _ => None
      end
  | CreateRejected err =>
      match workflow s with
      | AwaitCreate =>
          Some (commit
                  {| cells := workflowFailed err (cells s);
                     interval := interval s;
                     workflow := Settled;
                     in_flight := in_flight s;
                     polls_issued := polls_issued s;
                     creations_issued := creations_issued s |})
      | _ => None
      end
  | Tick =>
      match interval s with
      | Some closed_over =>
          Some {| cells := setPollingError JNull (cells s);
                  interval := interval s;
                  workflow := workflow s;
                  in_flight :=
                    <[polls_issued s := get closed_over "id"]> (in_flight s);
                  polls_issued := S (polls_issued s);
                  creations_issued := creations_issued s |}
      | None => None
      end
  | PollResolved n data =>
      match in_flight s !! n with
      | Some _ =>
          let applied :=
            {| cells := setTask data (cells s);
               interval := pollingEffect data;
               workflow := workflow s;
               in_flight := delete n (in_flight s);
               polls_issued := polls_issued s;
               creations_issued := creations_issued s |} in
          Some (if report_renders data then applied else unmounted applied)
      | None => None
      end
  | PollRejected n _ =>
      match in_flight s !! n with
      | Some _ =>
          Some {| cells := setPollingError connectionLost (cells s);
                  interval := interval s;
                  workflow := workflow s;
                  in_flight := delete n (in_flight s);
                  polls_issued := polls_issued s;
                  creations_issued := creations_issued s |}
      | None => None
      end
  end.

(** A sequence of events, oldest first. *)
Fixpoint run (s : page) (events : list event) : option page :=
  match events with
  | [] => Some s
  | e :: rest =>
      match step s e with
      | Some s' => run s' rest
      | None => None
      end
  end.

Definition reachable (s : page) : Prop :=
  exists events, run mount events = Some s.

(** What every reachable page satisfies.  The armed interval is always the
    one the polling effect makes of the cached record, unless the first render
    of the details view threw, which leaves no interval and nothing in flight;
    and until the start-up workflow has settled there is no record and nothing
    in flight. *)
Definition consistent (s : page) : Prop :=
  (interval s = pollingEffect (task (cells s))
   \/ (interval s = None /\ in_flight s = ∅ /\ render (cells s) = RenderThrows))
  /\ (workflow s <> Settled -> task (cells s) = JNull /\ in_flight s = ∅).

End JobDetailsPage.

Import JobDetailsPage.

#[global] Arguments commit : simpl never.
#[global] Arguments unmounted : simpl never.
#[global] Arguments render : simpl never.
#[global] Arguments report_renders : simpl never.

(* ===================================================================== *)
(** ** services/api.js: the request interceptor *)
(* ===================================================================== *)

Module Api.

(** [localStorage.getItem('authToken')] is a string or [null]; a non-empty
    one is written into [config.headers['Authorization']]. *)
Definition withAuthorization (token : option string) (headers : gmap string string)
  : gmap string string :=
  match token with
  | Some t =>
      if String.eqb t "" then headers
      else <["Authorization" := String.append "Bearer " t]> headers
  | None => headers
  end.

End Api.

Import Api.

(* ===================================================================== *)
(** ** More of what holds in every reachable state of the page *)
(* ===================================================================== *)

(** The start-up workflow sends its creation request once the job has been
    fetched and never again; the banner is up until it settles; a fatal error
    excludes a task record and any poll; the polling error is [null] or the
    one message; polls carry numbers below the count of those issued. *)
Definition orderly (s : page) : Prop :=
  (workflow s = AwaitJob -> creations_issued s = 0 /\ job (cells s) = JNull)
  /\ (workflow s = AwaitCreate -> creations_issued s = 1)
  /\ creations_issued s <= 1
  /\ (isInitializing (cells s) = true <-> workflow s <> Settled)
  /\ (workflow s <> Settled -> error (cells s) = JNull /\ polls_issued s = 0)
  /\ (error (cells s) = JNull
      \/ (truthy (error (cells s)) = true /\ task (cells s) = JNull
          /\ polls_issued s = 0 /\ in_flight s = ∅))
  /\ (pollingError (cells s) = JNull \/ pollingError (cells s) = connectionLost)
  /\ (task (cells s) <> JNull -> creations_issued s = 1)
  /\ (forall n, is_Some (in_flight s !! n) -> n < polls_issued s)
  /\ (0 < polls_issued s -> creations_issued s = 1).

(** A page that still has an interval armed or a poll in flight is mounted:
    its last render did not throw. *)
Definition live_renders (s : page) : Prop :=
  is_Some (interval s) \/ in_flight s <> ∅ -> render (cells s) <> RenderThrows.

(** Polls that do not overlap: each tick is answered, with the next record of
    the list, before the next tick fires.  [n] is the number of the first
    poll. *)
Fixpoint sequential (n : nat) (records : list value) : list event :=
  match records with
  | [] => []
  | d :: rest => Tick :: PollResolved n d :: sequential (S n) rest
  end.

(* ===================================================================== *)
(** ** Sample records *)
(* ===================================================================== *)

Module Samples.

Definition number_one : value := JNum 1%float.

(** What the creation call answers with. *)
Definition pending : value :=
  JObj {[ "id" := number_one; "task_type" := JStr "GET_JOB_DETAILS";
          "status" := JStr "pending" ]}.

Definition processing : value :=
  JObj {[ "id" := number_one; "task_type" := JStr "GET_JOB_DETAILS";
          "status" := JStr "processing" ]}.

(** [{status: "complete", result: {}}] *)
Definition complete_bare : value :=
  JObj {[ "status" := JStr "complete"; "result" := JObj ∅ ]}.

(** A first-step record whose triage has not reported yet. *)
Definition complete_untriaged : value :=
  JObj {[ "id" := number_one; "task_type" := JStr "GET_JOB_DETAILS";
          "status" := JStr "complete"; "result" := JObj ∅ ]}.

(** The same with [triage_decision: {}]. *)
Definition complete_empty_triage : value :=
  JObj {[ "id" := number_one; "task_type" := JStr "GET_JOB_DETAILS";
          "status" := JStr "complete";
          "result" := JObj {[ "triage_decision" := JObj ∅ ]} ]}.

Definition finalized : value :=
  JObj {[ "id" := number_one; "task_type" := JStr "GET_JOB_DETAILS";
          "status" := JStr "finalized";
          "result" := JObj {[ "ai_analysis" := JObj ∅ ]} ]}.

Definition failed : value :=
  JObj {[ "id" := number_one; "task_type" := JStr "GET_JOB_DETAILS";
          "status" := JStr "failed" ]}.

Definition some_job : value := JObj {[ "job_id" := JNum 42%float ]}.

(** A rejection reason without a response, as axios gives when the server
    cannot be reached. *)
Definition network_error : gmap string value :=
  {[ "message" := JStr "Network Error" ]}.

(** A rejection reason carrying the backend's explanation. *)
Definition not_found : gmap string value :=
  {[ "response" :=
       JObj {[ "data" := JObj {[ "detail" := JStr "Job not found" ]} ]} ]}.

(** A page that was mounted, fetched its job and created its task. *)
Definition polling : list event := [JobResolved some_job; CreateResolved pending].

(** The state such a page is in: the interval is armed on [pending]. *)
Definition polling_page : page := default mount (run mount polling).


(** A final record with a complete report. *)
Definition finalized_with_report : value :=
  JObj {[ "id" := number_one; "task_type" := JStr "GET_JOB_DETAILS";
          "status" := JStr "finalized";
          "result" :=
            JObj {[ "ai_analysis" :=
                      JObj {[ "problem_summary" := JStr "Disk full";
                              "probable_cause" := JStr "Retention too long";
                              "recommended_action" := JStr "Prune old copies" ]} ]} ]}.

(** A first-step record whose triage asked for more data. *)
Definition complete_insufficient : value :=
  JObj {[ "id" := number_one; "task_type" := JStr "GET_JOB_DETAILS";
          "status" := JStr "complete";
          "result" :=
            JObj {[ "triage_decision" :=
                      JObj {[ "is_sufficient" := JBool false ]} ]} ]}.

(** The polling page after one poll that brought the final record. *)
Definition finished_page : page :=
  default mount
    (run mount (polling ++ [Tick; PollResolved 0 finalized_with_report])).


(** A first-step record whose [triage_decision] is present but [false]. *)
Definition complete_triage_false : value :=
  JObj {[ "id" := number_one; "task_type" := JStr "GET_JOB_DETAILS";
          "status" := JStr "complete";
          "result" := JObj {[ "triage_decision" := JBool false ]} ]}.

(** A record of another task type. *)
Definition other_step : value :=
  JObj {[ "id" := number_one; "task_type" := JStr "GET_JOB_LOGS";
          "status" := JStr "pending" ]}.

End Samples.

(** The two displays a ['complete'] record without a triage decision can get. *)
Definition triageMessage : string := "Initial data received. Performing AI triage...".
Definition fallbackDisplay : display := Display "loading" "Analysis in progress...".

(** The messages that name a stage of the first step. *)
Definition stageMessages : list string :=
  [ "Requesting initial details from on-premises agent...";
    "Initial data received. Performing AI triage...";
    "Triage complete. Finalizing analysis...";
    "Triage complete. Agent is now fetching detailed logs..." ].

(* ===================================================================== *)
(** ** Facts about values *)
(* ===================================================================== *)

Section ValueFacts.

Implicit Types (v : value) (k lit : string).

Lemma is_string_true v lit : is_string v lit = true <-> v = JStr lit.
Proof.
  destruct v as [| |b|x|s|xs|m]; simpl; split; try discriminate.
  - intros H. apply String.eqb_eq in H. by subst.
  - intros [= ->]. apply String.eqb_refl.
Qed.

Lemma is_bool_true v (lit : bool) : is_bool v lit = true <-> v = JBool lit.
Proof.
  destruct v as [| |b|x|s|xs|m]; simpl; split; try discriminate.
  - intros H. apply Bool.eqb_prop in H. by subst.
  - intros [= ->]. by destruct lit.
Qed.

Lemma is_bool_false v (lit : bool) : is_bool v lit = false <-> v <> JBool lit.
Proof.
  rewrite <- is_bool_true. destruct (is_bool v lit); split; congruence.
Qed.

(** Only an object has a property that is not [undefined]. *)
Lemma get_defined v k : get v k <> JUndefined -> exists fields, v = JObj fields.
Proof. destruct v; simpl; try congruence. eauto. Qed.

Lemma get_defined_truthy v k : get v k <> JUndefined -> falsy v = false.
Proof. intros [m ->]%get_defined. reflexivity. Qed.

Lemma get_string_truthy v k lit : get v k = JStr lit -> falsy v = false.
Proof. intros H. apply (get_defined_truthy v k). by rewrite H. Qed.

Lemma falsy_no_property v k : falsy v = true -> get v k = JUndefined.
Proof. destruct v; simpl; try reflexivity; discriminate. Qed.

End ValueFacts.

(* ===================================================================== *)
(** ** Properties of [deriveTaskDisplayState] *)
(* ===================================================================== *)

(** C2 as stated fails on [{status: "complete", result: {}}]: the record has
    no [triage_decision] and is not answered with the triage message, since
    without [task_type === 'GET_JOB_DETAILS'] the function goes to its
    default. *)
Lemma complete_without_task_type_is_generic :
  get Samples.complete_bare "status" = JStr "complete"
  /\ opt_get (get Samples.complete_bare "result") "triage_decision" = JUndefined
  /\ deriveTaskDisplayState Samples.complete_bare
     = Display "loading" "Analysis in progress..."
  /\ message (deriveTaskDisplayState Samples.complete_bare) <> triageMessage.
Proof. repeat split; try reflexivity. vm_compute. discriminate. Qed.

(** C2, amended: a record with [status === 'complete'] whose
    [result?.triage_decision] is missing (or otherwise falsy) is displayed as
    ['loading']; the message is the triage one exactly when [task_type] is
    ['GET_JOB_DETAILS'], and the generic "Analysis in progress..." for every
    other task type. *)
Theorem complete_untriaged_display (task : value) :
  get task "status" = JStr "complete" ->
  falsy (opt_get (get task "result") "triage_decision") = true ->
  status (deriveTaskDisplayState task) = "loading"
  /\ deriveTaskDisplayState task
     = (if is_string (get task "task_type") "GET_JOB_DETAILS"
        then Display "loading" triageMessage
        else fallbackDisplay).
Proof.
  intros Hstatus Htriage. unfold deriveTaskDisplayState.
  rewrite (get_string_truthy _ _ _ Hstatus), Hstatus, Htriage. simpl.
  by destruct (is_string (get task "task_type") "GET_JOB_DETAILS").
Qed.

Lemma complete_untriaged_display_witness :
  get Samples.complete_untriaged "status" = JStr "complete"
  /\ falsy (opt_get (get Samples.complete_untriaged "result") "triage_decision") = true
  /\ deriveTaskDisplayState Samples.complete_untriaged
     = Display "loading" triageMessage.
Proof.
  split; [reflexivity | split; [reflexivity |]].
  exact (proj2 (complete_untriaged_display Samples.complete_untriaged
                  eq_refl eq_refl)).
Defined.

(** C6: a record whose [status] is ['finalized'] is displayed as ['success'],
    whatever its other properties hold. *)
Theorem finalized_is_success (task : value) :
  get task "status" = JStr "finalized" ->
  deriveTaskDisplayState task = Display "success" "Analysis Complete!".
Proof.
  intros Hstatus. unfold deriveTaskDisplayState.
  by rewrite (get_string_truthy _ _ _ Hstatus), Hstatus.
Qed.

Lemma finalized_is_success_witness :
  get Samples.finalized "status" = JStr "finalized"
  /\ status (deriveTaskDisplayState Samples.finalized) = "success".
Proof.
  split; [reflexivity |].
  exact (f_equal status (finalized_is_success Samples.finalized eq_refl)).
Defined.

(** C7: the display status is ['error'] exactly for a record whose [status] is
    ['failed']; an absent record and every other record get another status.
    A rejected poll leaves the cached record, and with it the derived display,
    as it was: the transport failure reaches the user through [pollingError],
    never through the derivation. *)
Theorem error_iff_failed :
  (forall task : value,
      status (deriveTaskDisplayState task) = "error"
      <-> get task "status" = JStr "failed")
  /\ (forall (s s' : page) (n : nat) (err : value),
        step s (PollRejected n err) = Some s' ->
        deriveTaskDisplayState (task (cells s'))
        = deriveTaskDisplayState (task (cells s))).
Proof.
  split.
  - intros task. split.
    + unfold deriveTaskDisplayState.
      repeat case_match; simpl; try discriminate.
      intros _. by apply is_string_true.
    + intros Hstatus. unfold deriveTaskDisplayState.
      by rewrite (get_string_truthy _ _ _ Hstatus), Hstatus.
  - intros s s' n err. simpl.
    destruct (in_flight s !! n); [| discriminate].
    by intros [= <-].
Qed.

(** C9: the derivation is a function of the record alone; evaluating it twice
    on the same record (or twice on the same absent input) gives the same
    status and the same message. *)
Theorem derive_twice_same (first second : value) :
  first = second ->
  deriveTaskDisplayState first = deriveTaskDisplayState second
  /\ status (deriveTaskDisplayState first) = status (deriveTaskDisplayState second)
  /\ message (deriveTaskDisplayState first) = message (deriveTaskDisplayState second).
Proof. by intros ->. Qed.

Lemma derive_twice_same_witness :
  deriveTaskDisplayState Samples.processing = deriveTaskDisplayState Samples.processing
  /\ deriveTaskDisplayState JNull = deriveTaskDisplayState JNull.
Proof.
  split.
  - exact (proj1 (derive_twice_same Samples.processing Samples.processing eq_refl)).
  - exact (proj1 (derive_twice_same JNull JNull eq_refl)).
Defined.

(** C10 as stated fails on this record: its [triage_decision] is present but
    [false], so its [is_sufficient] is neither [true] nor [false], and yet the
    function answers with the triage-in-progress message, as it does when the
    decision is absent. *)
Lemma present_falsy_triage_is_in_progress :
  get (get Samples.complete_triage_false "result") "triage_decision" = JBool false
  /\ get (JBool false) "is_sufficient" <> JBool true
  /\ get (JBool false) "is_sufficient" <> JBool false
  /\ deriveTaskDisplayState Samples.complete_triage_false
     = Display "loading" triageMessage
  /\ deriveTaskDisplayState Samples.complete_triage_false
     <> Display "loading" "Analysis in progress...".
Proof. repeat split; try reflexivity; vm_compute; discriminate. Qed.

(** C10, amended: a first-step record that is ['complete'] and carries a
    truthy triage decision (any object, the empty one included) whose
    [is_sufficient] is neither [true] nor [false] gets none of the three
    triage messages: it falls through to the generic display.  A decision
    that is present but falsy ([false], [0], [""], [null]) counts as absent
    and gets the triage-in-progress message. *)
Theorem undecided_triage_falls_through (task triageDecision : value) :
  get task "task_type" = JStr "GET_JOB_DETAILS" ->
  get task "status" = JStr "complete" ->
  opt_get (get task "result") "triage_decision" = triageDecision ->
  get triageDecision "is_sufficient" <> JBool true ->
  get triageDecision "is_sufficient" <> JBool false ->
  (truthy triageDecision = true ->
   deriveTaskDisplayState task = Display "loading" "Analysis in progress..."
   /\ message (deriveTaskDisplayState task) <> triageMessage
   /\ message (deriveTaskDisplayState task)
      <> "Triage complete. Finalizing analysis..."
   /\ message (deriveTaskDisplayState task)
      <> "Triage complete. Agent is now fetching detailed logs...")
  /\ (truthy triageDecision = false ->
      deriveTaskDisplayState task = Display "loading" triageMessage).
Proof.
  intros Htype Hstatus Htriage Hnot_true Hnot_false.
  assert (deriveTaskDisplayState task
          = if truthy triageDecision
            then Display "loading" "Analysis in progress..."
            else Display "loading" triageMessage) as ->.
  { unfold deriveTaskDisplayState.
    rewrite (get_string_truthy _ _ _ Hstatus), Hstatus, Htype, Htriage.
    unfold falsy. simpl.
    apply is_bool_false in Hnot_true, Hnot_false.
    rewrite Hnot_true, Hnot_false. by destruct (truthy triageDecision). }
  split; intros ->; by repeat split.
Qed.

Lemma undecided_triage_falls_through_witness :
  opt_get (get Samples.complete_empty_triage "result") "triage_decision" = JObj ∅
  /\ deriveTaskDisplayState Samples.complete_empty_triage
     = Display "loading" "Analysis in progress..."
  /\ deriveTaskDisplayState Samples.complete_triage_false
     = Display "loading" triageMessage.
Proof.
  split; [reflexivity |]. split.
  - refine (proj1 (proj1 (undecided_triage_falls_through
                            Samples.complete_empty_triage (JObj ∅)
                            eq_refl eq_refl eq_refl _ _) eq_refl));
      vm_compute; discriminate.
  - refine (proj2 (undecided_triage_falls_through
                     Samples.complete_triage_false (JBool false)
                     eq_refl eq_refl eq_refl _ _) eq_refl);
      vm_compute; discriminate.
Defined.

(* ===================================================================== *)
(** ** The page: single steps *)
(* ===================================================================== *)

Section Steps.

Implicit Types (s : page) (n : nat) (d id err : value).

Lemma step_Tick s closed_over :
  interval s = Some closed_over ->
  step s Tick
  = Some (Page (setPollingError JNull (cells s)) (interval s) (workflow s)
               (<[polls_issued s := get closed_over "id"]> (in_flight s))
               (S (polls_issued s)) (creations_issued s)).
Proof. intros H. simpl. by rewrite H. Qed.

Lemma step_Tick_unarmed s : interval s = None -> step s Tick = None.
Proof. intros H. simpl. by rewrite H. Qed.

Lemma step_PollRejected s n id err :
  in_flight s !! n = Some id ->
  step s (PollRejected n err)
  = Some (Page (setPollingError connectionLost (cells s)) (interval s)
               (workflow s) (delete n (in_flight s)) (polls_issued s)
               (creations_issued s)).
Proof. intros H. simpl. by rewrite H. Qed.

(** The polling effect arms nothing on a terminal or missing record. *)
Lemma pollingEffect_terminal d : is_terminal d = true -> pollingEffect d = None.
Proof. intros H. unfold pollingEffect. rewrite H. by destruct (falsy d). Qed.

Lemma pollingEffect_armed d t :
  pollingEffect d = Some t -> t = d /\ falsy d = false /\ is_terminal d = false.
Proof.
  unfold pollingEffect.
  destruct (falsy d), (is_terminal d); simpl; try discriminate.
  by intros [= ->].
Qed.

Lemma is_terminal_truthy d : is_terminal d = true -> falsy d = false.
Proof.
  unfold is_terminal. intros H.
  apply (get_defined_truthy d "status").
  destruct (get d "status"); simpl in H; congruence.
Qed.

(** Only a ['finalized'] record has a report, so only such a record can make
    the report throw. *)
Lemma report_fails_terminal d : report_renders d = false -> is_terminal d = true.
Proof.
  unfold report_renders, AIAnalysisResult, is_terminal.
  replace (opt_get d "status") with (get d "status") by (by destruct d).
  by destruct (is_string (get d "status") "finalized").
Qed.

Lemma report_fails_unarmed d : report_renders d = false -> pollingEffect d = None.
Proof. intros H. by apply pollingEffect_terminal, report_fails_terminal. Qed.

(** A resolved poll: the record is replaced and the interval is what the
    polling effect makes of the new record, whether the render that follows
    succeeds or throws (it can only throw on a terminal record); when it
    throws, the other polls in flight are dropped with the page. *)
Lemma step_PollResolved s n id d :
  in_flight s !! n = Some id ->
  step s (PollResolved n d)
  = Some (Page (setTask d (cells s)) (pollingEffect d) (workflow s)
               (if report_renders d then delete n (in_flight s) else ∅)
               (polls_issued s) (creations_issued s)).
Proof.
  intros H. unfold step. rewrite H.
  destruct (report_renders d) eqn:Hreport; [done |].
  unfold unmounted. cbn. by rewrite (report_fails_unarmed d Hreport).
Qed.

Lemma commit_cases s :
  (commit s = s /\ render (cells s) <> RenderThrows)
  \/ (commit s = unmounted s /\ render (cells s) = RenderThrows).
Proof.
  unfold commit. destruct (render (cells s)); cbn; [left | left | left | right]; done.
Qed.

Lemma cells_commit s : cells (commit s) = cells s.
Proof. by destruct (commit_cases s) as [[-> _] | [-> _]]. Qed.

Lemma workflow_commit s : workflow (commit s) = workflow s.
Proof. by destruct (commit_cases s) as [[-> _] | [-> _]]. Qed.

Lemma polls_issued_commit s : polls_issued (commit s) = polls_issued s.
Proof. by destruct (commit_cases s) as [[-> _] | [-> _]]. Qed.

Lemma creations_issued_commit s : creations_issued (commit s) = creations_issued s.
Proof. by destruct (commit_cases s) as [[-> _] | [-> _]]. Qed.

Lemma interval_commit_None s : interval s = None -> interval (commit s) = None.
Proof. by destruct (commit_cases s) as [[-> _] | [-> _]]. Qed.

Lemma in_flight_commit_empty s : in_flight s = ∅ -> in_flight (commit s) = ∅.
Proof. by destruct (commit_cases s) as [[-> _] | [-> _]]. Qed.

End Steps.

(* ===================================================================== *)
(** ** The page: what holds in every reachable state *)
(* ===================================================================== *)

Lemma consistent_mount : consistent mount.
Proof. split; [by left |]. by intros _. Qed.

(** Before the workflow settles no interval is armed. *)
Lemma consistent_pending (s : page) :
  consistent s -> workflow s <> Settled ->
  task (cells s) = JNull /\ in_flight s = ∅ /\ interval s = None.
Proof.
  intros [Hint Hwf] Hw. destruct (Hwf Hw) as [Htask Hempty].
  repeat split; try done.
  destruct Hint as [Hint | [Hnone _]]; [| done]. by rewrite Hint, Htask.
Qed.

(** An armed interval closed over the cached record. *)
Lemma consistent_armed (s : page) (t : value) :
  consistent s -> interval s = Some t -> pollingEffect (task (cells s)) = Some t.
Proof.
  intros [[Hint | [Hnone _]] _] Harmed; [by rewrite <- Hint |].
  rewrite Hnone in Harmed. discriminate.
Qed.

Lemma consistent_commit (s : page) : consistent s -> consistent (commit s).
Proof.
  intros [Hint Hwf].
  destruct (commit_cases s) as [[-> _] | [-> Hthrows]]; [done |].
  split; [by right |]. cbn. intros Hw. by destruct (Hwf Hw).
Qed.

Lemma consistent_step (s s' : page) (e : event) :
  consistent s -> step s e = Some s' -> consistent s'.
Proof.
  intros Hcons Hstep.
  destruct e as [d|err|d|err| |n d|n err].
  - (* getJobById resolved *)
    simpl in Hstep. destruct (workflow s) eqn:Hw; try discriminate.
    injection Hstep as <-.
    destruct (consistent_pending s Hcons) as (Htask & Hempty & Hnone);
      [by rewrite Hw |].
    split; cbn; [left; by rewrite Hnone, Htask | done].
  - (* getJobById rejected *)
    simpl in Hstep. destruct (workflow s) eqn:Hw; try discriminate.
    injection Hstep as <-.
    destruct (consistent_pending s Hcons) as (Htask & Hempty & Hnone);
      [by rewrite Hw |].
    apply consistent_commit. split; cbn; [left; by rewrite Hnone, Htask | done].
  - (* createAnalysisTask resolved *)
    simpl in Hstep. destruct (workflow s) eqn:Hw; try discriminate.
    injection Hstep as <-.
    apply consistent_commit. split; cbn; [by left | done].
  - (* createAnalysisTask rejected *)
    simpl in Hstep. destruct (workflow s) eqn:Hw; try discriminate.
    injection Hstep as <-.
    destruct (consistent_pending s Hcons) as (Htask & Hempty & Hnone);
      [by rewrite Hw |].
    apply consistent_commit. split; cbn; [left; by rewrite Hnone, Htask | done].
  - (* the interval fires *)
    destruct (interval s) as [t|] eqn:Harmed;
      [| by rewrite step_Tick_unarmed in Hstep].
    pose proof (consistent_armed s t Hcons Harmed) as Hclosed.
    rewrite (step_Tick s t Harmed) in Hstep. injection Hstep as <-.
    split; cbn; [left; by rewrite Harmed, Hclosed |].
    intros Hw. destruct (consistent_pending s Hcons Hw) as (_ & _ & Hnone).
    congruence.
  - (* a poll resolved *)
    destruct (in_flight s !! n) as [id|] eqn:Hn;
      [| by (simpl in Hstep; rewrite Hn in Hstep)].
    rewrite (step_PollResolved s n id d Hn) in Hstep. injection Hstep as <-.
    split; cbn; [by left |].
    intros Hw. destruct (consistent_pending s Hcons Hw) as (_ & Hempty & _).
    rewrite Hempty in Hn. by rewrite lookup_empty in Hn.
  - (* a poll rejected *)
    destruct (in_flight s !! n) as [id|] eqn:Hn;
      [| by (simpl in Hstep; rewrite Hn in Hstep)].
    rewrite (step_PollRejected s n id err Hn) in Hstep. injection Hstep as <-.
    assert (in_flight s <> ∅) as Hsome.
    { intros Hempty. rewrite Hempty in Hn. by rewrite lookup_empty in Hn. }
    split; cbn.
    + destruct Hcons as [[Hint | (_ & Hempty & _)] _]; [by left | done].
    + intros Hw. by destruct (consistent_pending s Hcons Hw) as (_ & Hempty & _).
Qed.

Lemma consistent_run (events : list event) (s s' : page) :
  consistent s -> run s events = Some s' -> consistent s'.
Proof.
  revert s. induction events as [|e rest IH]; intros s Hs; simpl.
  - by intros [= <-].
  - destruct (step s e) as [s1|] eqn:Hstep; [| discriminate].
    apply IH. by apply (consistent_step s s1 e).
Qed.

Lemma reachable_consistent (s : page) : reachable s -> consistent s.
Proof. intros [events Hrun]. exact (consistent_run events mount s consistent_mount Hrun). Qed.

(** A settled page with no interval and nothing in flight is at rest. *)
Lemma at_rest (s : page) :
  workflow s = Settled -> interval s = None -> in_flight s = ∅ ->
  forall e, step s e = None.
Proof.
  intros Hw Harmed Hempty e.
  destruct e; simpl; rewrite ?Hw, ?Harmed, ?Hempty, ?lookup_empty; done.
Qed.

Lemma run_at_rest (s s' : page) (events : list event) :
  (forall e, step s e = None) -> run s events = Some s' -> events = [] /\ s' = s.
Proof.
  intros Hrest. destruct events as [|e rest]; simpl.
  - by intros [= <-].
  - by rewrite Hrest.
Qed.

(* ===================================================================== *)
(** ** Properties of the polling effect *)
(* ===================================================================== *)

(** C1 as stated fails on this run: two polls are in flight, the answer to
    the second one arrives first and is cached, then the answer to the first
    one arrives and takes its place. *)
Lemma late_response_overwrites_newer :
  let issued := Samples.polling ++ [Tick; Tick] in
  let second_answered := issued ++ [PollResolved 1 Samples.complete_untriaged] in
  let first_answered := second_answered ++ [PollResolved 0 Samples.processing] in
  (task ∘ cells <$> run mount second_answered) = Some Samples.complete_untriaged
  /\ (task ∘ cells <$> run mount first_answered) = Some Samples.processing
  /\ Samples.processing <> Samples.complete_untriaged.
Proof.
  repeat split; try reflexivity.
  intros H. apply (f_equal (fun v => get v "status")) in H.
  vm_compute in H. discriminate.
Qed.

(** C1, amended: responses are applied in the order they arrive, without any
    check of the order the requests were issued in.  When two ticks have
    issued R1 and R2 and R2's response is applied first, R1's late response is
    still accepted and replaces it, provided the page could render R2's
    record: the record cached in the end is R1's.  When the render of R2's
    record throws (a final record whose report cannot be rendered) the page is
    gone and R1's response has no effect. *)
Theorem responses_applied_in_arrival_order (s : page) (t r1 r2 : value) :
  interval s = Some t ->
  let n1 := polls_issued s in
  let n2 := S (polls_issued s) in
  exists s2,
    run s [Tick; Tick; PollResolved n2 r2] = Some s2
    /\ task (cells s2) = r2
    /\ (report_renders r2 = true ->
        exists s1,
          step s2 (PollResolved n1 r1) = Some s1
          /\ task (cells s1) = r1
          /\ interval s1 = pollingEffect r1)
    /\ (report_renders r2 = false ->
        interval s2 = None /\ step s2 (PollResolved n1 r1) = None).
Proof.
  intros Harmed n1 n2. subst n1 n2.
  set (id := get t "id").
  unfold run.
  rewrite (step_Tick s t Harmed).
  rewrite (step_Tick _ t) by exact Harmed.
  cbn [polls_issued in_flight cells interval workflow creations_issued].
  erewrite step_PollResolved by apply lookup_insert_eq.
  eexists. split; [reflexivity |]. split; [reflexivity |].
  cbn [polls_issued in_flight cells interval workflow creations_issued].
  split.
  - intros ->.
    erewrite step_PollResolved; [by eexists |].
    cbn [in_flight].
    rewrite lookup_delete_ne by lia.
    rewrite lookup_insert_ne by lia.
    apply lookup_insert_eq.
  - intros Hthrows. rewrite Hthrows.
    split; [by apply report_fails_unarmed |].
    unfold step. cbn [in_flight]. by rewrite lookup_empty.
Qed.

Lemma responses_applied_in_arrival_order_witness :
  interval Samples.polling_page = Some Samples.pending
  /\ report_renders Samples.complete_untriaged = true
  /\ exists s2 s1,
      run Samples.polling_page
          [Tick; Tick; PollResolved 1 Samples.complete_untriaged] = Some s2
      /\ task (cells s2) = Samples.complete_untriaged
      /\ step s2 (PollResolved 0 Samples.processing) = Some s1
      /\ task (cells s1) = Samples.processing
      /\ interval s1 = pollingEffect Samples.processing.
Proof.
  split; [reflexivity |]. split; [reflexivity |].
  destruct (responses_applied_in_arrival_order Samples.polling_page
              Samples.pending Samples.processing Samples.complete_untriaged
              eq_refl)
    as (s2 & Hrun & Htask & Hrenders & _).
  destruct (Hrenders eq_refl) as (s1 & Hstep & Hlate & Hint).
  exists s2, s1. repeat split; assumption.
Defined.

(** C3 as stated fails on this run: the final record, with a report the page
    renders, arrives while an older poll is still in flight, and the interval
    is cleared after two fetches; the older answer then brings a record that
    is not terminal, the effect arms a new interval and a third fetch goes
    out. *)
Lemma late_response_rearms_interval :
  let stopped :=
    Samples.polling
    ++ [Tick; Tick; PollResolved 1 Samples.finalized_with_report] in
  let resumed := stopped ++ [PollResolved 0 Samples.processing; Tick] in
  is_terminal Samples.finalized_with_report = true
  /\ (render ∘ cells <$> run mount stopped)
     = Some (Details Samples.some_job Samples.finalized_with_report JNull)
  /\ (interval <$> run mount stopped) = Some None
  /\ (polls_issued <$> run mount stopped) = Some 2
  /\ (polls_issued <$> run mount resumed) = Some 3.
Proof. repeat split; reflexivity. Qed.

(** C3, amended: while the cached record is terminal (['finalized'] or
    ['failed']) no interval is armed and no tick can fire, so no fetch is
    issued from such a state; and when no poll at all is in flight at that
    point, nothing can happen to the page any more, so the number of fetches
    issued stays what it is for good. *)
Theorem terminal_record_stops_polling (s : page) :
  reachable s ->
  is_terminal (task (cells s)) = true ->
  interval s = None
  /\ step s Tick = None
  /\ (in_flight s = ∅ ->
      (forall e, step s e = None)
      /\ forall later s', run s later = Some s' ->
           later = [] /\ polls_issued s' = polls_issued s).
Proof.
  intros [Harmed Hwf]%reachable_consistent Hterminal.
  assert (interval s = None) as Hnone.
  { destruct Harmed as [Harmed | [Hnone _]]; [| done].
    rewrite Harmed. by apply pollingEffect_terminal. }
  split; [exact Hnone |]. split; [by apply step_Tick_unarmed |].
  intros Hempty.
  assert (workflow s = Settled) as Hsettled.
  { destruct (workflow s) eqn:Hw; [| | reflexivity].
    - destruct Hwf as [Htask _]; [done |]. by rewrite Htask in Hterminal.
    - destruct Hwf as [Htask _]; [done |]. by rewrite Htask in Hterminal. }
  pose proof (at_rest s Hsettled Hnone Hempty) as Hrest.
  split; [exact Hrest |].
  intros later s' Hrun.
  destruct (run_at_rest s s' later Hrest Hrun) as [-> ->]. done.
Qed.

Lemma terminal_record_stops_polling_witness :
  reachable Samples.finished_page
  /\ is_terminal (task (cells Samples.finished_page)) = true
  /\ in_flight Samples.finished_page = ∅
  /\ interval Samples.finished_page = None
  /\ step Samples.finished_page Tick = None
  /\ forall e, step Samples.finished_page e = None.
Proof.
  assert (reachable Samples.finished_page) as Hreach.
  { exists (Samples.polling
            ++ [Tick; PollResolved 0 Samples.finalized_with_report]).
    reflexivity. }
  pose proof (terminal_record_stops_polling Samples.finished_page Hreach eq_refl)
    as (Hnone & Htick & Hrest).
  repeat split; try assumption; try reflexivity.
  exact (proj1 (Hrest eq_refl)).
Defined.

(** C4: a tick whose fetch is rejected changes nothing but the polling-error
    cell.  Issuing the fetch leaves the cached record and the interval alone;
    whenever the rejection arrives, in whatever state the page then is, it
    only stores the "connection lost" message; and when nothing else happened
    in between, the record is still the one cached before the tick, the same
    interval is still armed and its next tick fires. *)
Theorem failed_poll_keeps_record (s : page) (t err : value) :
  interval s = Some t ->
  exists s1,
    step s Tick = Some s1
    /\ task (cells s1) = task (cells s)
    /\ interval s1 = interval s
    /\ in_flight s1 !! polls_issued s = Some (get t "id")
    /\ (forall s', is_Some (in_flight s' !! polls_issued s) ->
          exists s2,
            step s' (PollRejected (polls_issued s) err) = Some s2
            /\ cells s2 = setPollingError connectionLost (cells s')
            /\ interval s2 = interval s'
            /\ workflow s2 = workflow s'
            /\ polls_issued s2 = polls_issued s'
            /\ creations_issued s2 = creations_issued s')
    /\ exists s2 s3,
        step s1 (PollRejected (polls_issued s) err) = Some s2
        /\ task (cells s2) = task (cells s)
        /\ job (cells s2) = job (cells s)
        /\ error (cells s2) = error (cells s)
        /\ isInitializing (cells s2) = isInitializing (cells s)
        /\ pollingError (cells s2) = connectionLost
        /\ interval s2 = Some t
        /\ step s2 Tick = Some s3.
Proof.
  intros Harmed. eexists. split; [by apply step_Tick |].
  split; [reflexivity |]. split; [reflexivity |].
  split; [apply lookup_insert_eq |]. split.
  - intros s' [id Hid]. eexists. split; [by eapply step_PollRejected |].
    by repeat split.
  - eexists _, _. split.
    { eapply step_PollRejected. apply lookup_insert_eq. }
    repeat split; try done.
    by eapply step_Tick.
Qed.

Lemma failed_poll_keeps_record_witness :
  interval Samples.polling_page = Some Samples.pending
  /\ exists s1 s2,
      step Samples.polling_page Tick = Some s1
      /\ step s1 (PollRejected 0 (JObj Samples.network_error)) = Some s2
      /\ task (cells s2) = Samples.pending
      /\ pollingError (cells s2) = connectionLost
      /\ interval s2 = Some Samples.pending.
Proof.
  split; [reflexivity |].
  destruct (failed_poll_keeps_record Samples.polling_page Samples.pending
              (JObj Samples.network_error) eq_refl)
    as (s1 & Htick & _ & _ & _ & _ & s2 & s3 & Hrej & Htask & _ & _ & _ & Herr & Harmed & _).
  exists s1, s2. repeat split; assumption.
Defined.

Lemma or_else_truthy (a b : value) : truthy b = true -> truthy (or_else a b) = true.
Proof. intros Hb. unfold or_else. by destruct (truthy a) eqn:Ha. Qed.

(** A start-up workflow that failed, on a page that had nothing armed and
    nothing in flight. *)
Lemma settle_failed (h : hooks) (err : gmap string value) (polls creations : nat) :
  let s := commit (Page (workflowFailed err h) None Settled ∅ polls creations) in
  error (cells s)
  = or_else (opt_get (opt_get (get (JObj err) "response") "data") "detail")
            (JStr "An error occurred.")
  /\ truthy (error (cells s)) = true
  /\ render (cells s)
     = (if renderable (error (cells s)) then ErrorBox (error (cells s))
        else RenderThrows)
  /\ task (cells s) = task h
  /\ job (cells s) = job h
  /\ interval s = None
  /\ polls_issued s = polls
  /\ creations_issued s = creations
  /\ (forall e, step s e = None).
Proof.
  intros s. subst s.
  assert (truthy (or_else
                    (opt_get (opt_get (get (JObj err) "response") "data") "detail")
                    (JStr "An error occurred.")) = true) as Hshown
    by by apply or_else_truthy.
  rewrite cells_commit, polls_issued_commit, creations_issued_commit.
  rewrite interval_commit_None by done.
  split; [reflexivity |]. split; [exact Hshown |].
  split. { unfold render. cbn. cbn in Hshown. by rewrite Hshown. }
  do 5 (split; [reflexivity |]).
  apply at_rest.
  - by rewrite workflow_commit.
  - by apply interval_commit_None.
  - by apply in_flight_commit_empty.
Qed.



(** C8 as stated fails on this run: a poll is rejected while a later one is
    in flight; the later one is then resolved and its record cached, but the
    "connection lost" message reported before stays. *)
Lemma success_leaves_error_standing :
  let events :=
    Samples.polling
    ++ [Tick; Tick; PollRejected 0 (JObj Samples.network_error);
        PollResolved 1 Samples.processing] in
  (task ∘ cells <$> run mount events) = Some Samples.processing
  /\ (pollingError ∘ cells <$> run mount events) = Some connectionLost
  /\ connectionLost <> JNull
  /\ truthy connectionLost = true.
Proof. repeat split; try reflexivity. discriminate. Qed.

(** C8, amended: a tick whose fetch is resolved replaces the cached record by
    the response body as a whole and touches neither [job], nor [error], nor
    [isInitializing]; the polling effect then re-arms the interval on the new
    record (or arms none if that record is missing or terminal).  The polling
    error is cleared when the tick issues its fetch, not when the response
    arrives: it is clear after the response provided no other poll was
    rejected in between. *)
Theorem successful_poll_replaces_record (s : page) (t data : value) :
  interval s = Some t ->
  exists s1,
    step s Tick = Some s1
    /\ cells s1 = setPollingError JNull (cells s)
    /\ (forall s', is_Some (in_flight s' !! polls_issued s) ->
          exists s2,
            step s' (PollResolved (polls_issued s) data) = Some s2
            /\ cells s2 = setTask data (cells s')
            /\ interval s2 = pollingEffect data
            /\ workflow s2 = workflow s'
            /\ polls_issued s2 = polls_issued s'
            /\ creations_issued s2 = creations_issued s')
    /\ exists s2,
        step s1 (PollResolved (polls_issued s) data) = Some s2
        /\ cells s2
           = Hooks (job (cells s)) data (isInitializing (cells s))
                   (error (cells s)) JNull
        /\ interval s2 = pollingEffect data.
Proof.
  intros Harmed. eexists. split; [by apply step_Tick |].
  split; [reflexivity |]. split.
  - intros s' [id Hid]. eexists. split; [by eapply step_PollResolved |].
    by repeat split.
  - eexists. split.
    { eapply step_PollResolved. apply lookup_insert_eq. }
    by split.
Qed.

Lemma successful_poll_replaces_record_witness :
  interval Samples.polling_page = Some Samples.pending
  /\ exists s1 s2,
      step Samples.polling_page Tick = Some s1
      /\ step s1 (PollResolved 0 Samples.processing) = Some s2
      /\ task (cells s2) = Samples.processing
      /\ pollingError (cells s2) = JNull.
Proof.
  split; [reflexivity |].
  destruct (successful_poll_replaces_record Samples.polling_page Samples.pending
              Samples.processing eq_refl)
    as (s1 & Htick & _ & _ & s2 & Hres & Hcells & _).
  exists s1, s2. repeat split; try assumption.
  - exact (f_equal task Hcells).
  - exact (f_equal pollingError Hcells).
Defined.

(* ===================================================================== *)
(** ** More about [deriveTaskDisplayState] *)
(* ===================================================================== *)

Lemma finalized_is_success_status (task : value) :
  get task "status" = JStr "finalized" ->
  status (deriveTaskDisplayState task) = "success".
Proof.
  intros Hstatus. unfold deriveTaskDisplayState.
  by rewrite (get_string_truthy _ _ _ Hstatus), Hstatus.
Qed.

(** X1: the display is ['initializing'] exactly for a falsy argument (no
    record yet) and ['success'] exactly for a record whose [status] is
    ['finalized']. *)
Theorem initializing_and_success_exactly (task : value) :
  (status (deriveTaskDisplayState task) = "initializing" <-> falsy task = true)
  /\ (status (deriveTaskDisplayState task) = "success"
      <-> get task "status" = JStr "finalized").
Proof.
  split; split.
  - unfold deriveTaskDisplayState. repeat case_match; simpl; done.
  - intros H. unfold deriveTaskDisplayState. by rewrite H.
  - unfold deriveTaskDisplayState. repeat case_match; simpl; try discriminate.
    intros _. by apply is_string_true.
  - apply finalized_is_success_status.
Qed.

(** X2: the display is ['loading'] exactly for the records on which the polling
    effect arms its interval: the page polls while, and only while, the
    status line says the analysis is under way. *)
Theorem loading_iff_polling_armed (task : value) :
  status (deriveTaskDisplayState task) = "loading"
  <-> pollingEffect task = Some task.
Proof.
  unfold deriveTaskDisplayState, pollingEffect, is_terminal.
  destruct (falsy task); simpl; [split; discriminate |].
  destruct (is_string (get task "status") "finalized"); simpl;
    [split; discriminate |].
  destruct (is_string (get task "status") "failed"); simpl;
    [split; discriminate |].
  split; [done |]. intros _. by repeat case_match.
Qed.

(** X3: a message that names a stage of the first step (requesting details,
    triage, finalizing, fetching logs) is only ever shown for a record whose
    [task_type] is ['GET_JOB_DETAILS']. *)
Theorem stage_messages_only_for_first_step (task : value) :
  In (message (deriveTaskDisplayState task)) stageMessages ->
  get task "task_type" = JStr "GET_JOB_DETAILS".
Proof.
  unfold deriveTaskDisplayState.
  destruct (is_string (get task "task_type") "GET_JOB_DETAILS") eqn:Htype.
  - intros _. by apply is_string_true.
  - repeat case_match; simpl; intros Hin;
      repeat (destruct Hin as [Hin | Hin]; [discriminate Hin |]); destruct Hin.
Qed.

Lemma stage_messages_only_for_first_step_witness :
  In (message (deriveTaskDisplayState Samples.complete_insufficient)) stageMessages
  /\ get Samples.complete_insufficient "task_type" = JStr "GET_JOB_DETAILS".
Proof.
  assert (In (message (deriveTaskDisplayState Samples.complete_insufficient))
             stageMessages) as Hin.
  { vm_compute. do 3 right. by left. }
  split; [exact Hin |].
  exact (stage_messages_only_for_first_step Samples.complete_insufficient Hin).
Defined.

(** X4: for a ['GET_JOB_DETAILS'] record, ['pending'] and ['processing'] both
    show the request for initial details, and a ['complete'] record whose
    triage decision carries a boolean [is_sufficient] shows "Finalizing" for
    [true] and "fetching detailed logs" for [false]. *)
Theorem first_step_stage_messages :
  (forall task : value,
      get task "task_type" = JStr "GET_JOB_DETAILS" ->
      get task "status" = JStr "pending" \/ get task "status" = JStr "processing" ->
      deriveTaskDisplayState task
      = Display "loading" "Requesting initial details from on-premises agent...")
  /\ (forall (task : value) (sufficient : bool),
        get task "task_type" = JStr "GET_JOB_DETAILS" ->
        get task "status" = JStr "complete" ->
        get (opt_get (get task "result") "triage_decision") "is_sufficient"
        = JBool sufficient ->
        deriveTaskDisplayState task
        = Display "loading"
            (if sufficient then "Triage complete. Finalizing analysis..."
             else "Triage complete. Agent is now fetching detailed logs...")).
Proof.
  split.
  - intros task Htype Hstatus. unfold deriveTaskDisplayState.
    rewrite (get_defined_truthy task "task_type") by (by rewrite Htype).
    rewrite Htype. by destruct Hstatus as [-> | ->].
  - intros task sufficient Htype Hstatus Hverdict. unfold deriveTaskDisplayState.
    rewrite (get_string_truthy _ _ _ Hstatus), Hstatus, Htype. simpl.
    rewrite (get_defined_truthy _ "is_sufficient") by (by rewrite Hverdict).
    rewrite Hverdict. by destruct sufficient.
Qed.

(** X5: the display depends on nothing but the truthiness of the record, its
    [status], its [task_type], and the truthiness and [is_sufficient] of
    [result?.triage_decision]: two records that agree on these get the same
    display, whatever [id], [ai_analysis] or any other property holds. *)
Theorem derive_reads_only (t1 t2 : value) :
  falsy t1 = falsy t2 ->
  get t1 "status" = get t2 "status" ->
  get t1 "task_type" = get t2 "task_type" ->
  falsy (opt_get (get t1 "result") "triage_decision")
  = falsy (opt_get (get t2 "result") "triage_decision") ->
  get (opt_get (get t1 "result") "triage_decision") "is_sufficient"
  = get (opt_get (get t2 "result") "triage_decision") "is_sufficient" ->
  deriveTaskDisplayState t1 = deriveTaskDisplayState t2.
Proof.
  intros Hfalsy Hstatus Htype Htriage Hverdict.
  unfold deriveTaskDisplayState. cbv zeta.
  by rewrite Hfalsy, Hstatus, Htype, Htriage, Hverdict.
Qed.

Lemma derive_reads_only_witness :
  Samples.finalized <> Samples.finalized_with_report
  /\ deriveTaskDisplayState Samples.finalized
     = deriveTaskDisplayState Samples.finalized_with_report.
Proof.
  split.
  - intros H.
    apply (f_equal (fun v => get (get (get v "result") "ai_analysis")
                               "problem_summary")) in H.
    vm_compute in H. discriminate.
  - exact (derive_reads_only Samples.finalized Samples.finalized_with_report
             eq_refl eq_refl eq_refl eq_refl eq_refl).
Defined.

(* ===================================================================== *)
(** ** Properties of [AnalysisStatus] and [AIAnalysisResult] *)
(* ===================================================================== *)

Lemma derive_status (task : value) :
  status (deriveTaskDisplayState task)
  = if falsy task then "initializing"
    else if is_string (get task "status") "finalized" then "success"
    else if is_string (get task "status") "failed" then "error"
    else "loading".
Proof. unfold deriveTaskDisplayState. by repeat case_match. Qed.

Lemma opt_get_get (v : value) (k : string) : opt_get v k = get v k.
Proof. by destruct v. Qed.

Lemma is_string_truthy (v : value) (k lit : string) :
  is_string (get v k) lit = true -> falsy v = false.
Proof. intros H%is_string_true. by apply (get_string_truthy v k lit). Qed.

(** X6: the status line is yellow exactly when a polling error is set, whatever
    the record; red exactly when none is set and the record's [status] is
    ['failed']; green exactly when none is set and it is ['finalized']; and
    the spinner turns exactly when none is set and the record is missing or
    not terminal. *)
Theorem status_line_colours (task pollingError : value) :
  (colour (AnalysisStatus task pollingError) = "text-yellow-600"
   <-> truthy pollingError = true)
  /\ (colour (AnalysisStatus task pollingError) = "text-red-600"
      <-> truthy pollingError = false /\ get task "status" = JStr "failed")
  /\ (colour (AnalysisStatus task pollingError) = "text-green-600"
      <-> truthy pollingError = false /\ get task "status" = JStr "finalized")
  /\ (glyph (AnalysisStatus task pollingError) = Spinner
      <-> truthy pollingError = false /\ is_terminal task = false).
Proof.
  unfold AnalysisStatus, is_terminal.
  destruct (truthy pollingError); simpl.
  { repeat split; try done; intros [? _]; done. }
  rewrite derive_status.
  destruct (is_string (get task "status") "finalized") eqn:Hfinalized.
  - rewrite (is_string_truthy _ _ _ Hfinalized). simpl.
    apply is_string_true in Hfinalized. rewrite Hfinalized.
    repeat split; try done; intros [_ ?]; done.
  - destruct (is_string (get task "status") "failed") eqn:Hfailed.
    + rewrite (is_string_truthy _ _ _ Hfailed). simpl.
      apply is_string_true in Hfailed. rewrite Hfailed.
      repeat split; try done; intros [_ ?]; done.
    + assert (get task "status" <> JStr "failed") as Hnot_failed.
      { intros H%is_string_true. congruence. }
      assert (get task "status" <> JStr "finalized") as Hnot_finalized.
      { intros H%is_string_true. congruence. }
      destruct (falsy task); simpl; repeat split; try done; intros [_ ?]; done.
Qed.

(** X7: the report is rendered (or attempted) exactly for a record whose
    [status] is ['finalized'] and whose [result?.ai_analysis] is truthy.
    Whenever that is so the status line's derivation says ['success'] and the
    polling effect arms nothing, and on a reachable page no tick can fire. *)
Theorem report_only_for_final_record :
  (forall task : value,
      AIAnalysisResult task <> Nothing
      <-> get task "status" = JStr "finalized"
          /\ truthy (opt_get (get task "result") "ai_analysis") = true)
  /\ (forall task : value,
        AIAnalysisResult task <> Nothing ->
        status (deriveTaskDisplayState task) = "success"
        /\ pollingEffect task = None)
  /\ (forall s : page,
        reachable s ->
        AIAnalysisResult (task (cells s)) <> Nothing ->
        interval s = None /\ step s Tick = None).
Proof.
  assert (forall task : value,
             AIAnalysisResult task <> Nothing
             <-> get task "status" = JStr "finalized"
                 /\ truthy (opt_get (get task "result") "ai_analysis") = true)
    as Hshown.
  { intros task. unfold AIAnalysisResult, falsy. rewrite opt_get_get.
    destruct (is_string (get task "status") "finalized") eqn:Hfinalized; simpl.
    - apply is_string_true in Hfinalized.
      destruct (truthy (opt_get (get task "result") "ai_analysis")); simpl.
      + split; [done |]. intros _. by repeat case_match.
      + split; [done |]. by intros [_ ?].
    - split; [done |]. intros [H%is_string_true _]. congruence. }
  assert (forall task : value,
             AIAnalysisResult task <> Nothing -> is_terminal task = true)
    as Hterminal.
  { intros task [Hfinalized _]%Hshown. unfold is_terminal.
    by rewrite Hfinalized. }
  split; [exact Hshown |]. split.
  - intros task Hreport. split.
    + apply finalized_is_success_status. by apply Hshown.
    + by apply pollingEffect_terminal, Hterminal.
  - intros s [Harmed _]%reachable_consistent Hreport.
    assert (interval s = None) as Hnone.
    { destruct Harmed as [Harmed | [Hnone _]]; [| done].
      rewrite Harmed. by apply pollingEffect_terminal, Hterminal. }
    split; [exact Hnone |]. by apply step_Tick_unarmed.
Qed.

(** X8: past its guard the component returns its element only when both
    [probable_cause] and [recommended_action] of the report are strings; with
    either of them missing or of another type (an empty [ai_analysis] object,
    say) it throws instead of hiding the report. *)
Theorem report_needs_both_texts (task : value) :
  get task "status" = JStr "finalized" ->
  truthy (opt_get (get task "result") "ai_analysis") = true ->
  let ai_analysis := get (get task "result") "ai_analysis" in
  (AIAnalysisResult task = Throws
   <-> (forall cause, get ai_analysis "probable_cause" <> JStr cause)
       \/ (forall action, get ai_analysis "recommended_action" <> JStr action))
  /\ (forall cause action,
        get ai_analysis "probable_cause" = JStr cause ->
        get ai_analysis "recommended_action" = JStr action ->
        AIAnalysisResult task
        = Sections (get ai_analysis "problem_summary") cause action).
Proof.
  intros Hfinalized Hreport ai_analysis. subst ai_analysis.
  unfold AIAnalysisResult, falsy.
  rewrite opt_get_get, Hfinalized, Hreport. simpl.
  split.
  - destruct (get (get (get task "result") "ai_analysis") "probable_cause")
      as [| |b|x|cause|xs|m];
      try (split; [intros _; left; intros cause; discriminate | done]).
    destruct (get (get (get task "result") "ai_analysis") "recommended_action")
      as [| |b|x|action|xs|m];
      try (split; [intros _; right; intros action; discriminate | done]).
    split; [discriminate |].
    intros [H | H]; [by destruct (H cause) | by destruct (H action)].
  - by intros cause action -> ->.
Qed.

Lemma report_needs_both_texts_witness :
  AIAnalysisResult Samples.finalized = Throws
  /\ AIAnalysisResult Samples.finalized_with_report
     = Sections (JStr "Disk full") "Retention too long" "Prune old copies".
Proof.
  split.
  - apply (proj1 (report_needs_both_texts Samples.finalized eq_refl eq_refl)).
    left. intros cause. vm_compute. discriminate.
  - exact (proj2 (report_needs_both_texts Samples.finalized_with_report
                    eq_refl eq_refl)
             "Retention too long" "Prune old copies" eq_refl eq_refl).
Defined.

(* ===================================================================== *)
(** ** The page: more of what holds in every reachable state *)
(* ===================================================================== *)

Lemma orderly_mount : orderly mount.
Proof.
  unfold orderly. simpl. repeat split; try done; try lia; auto.
  intros n [x Hx]. by rewrite lookup_empty in Hx.
Qed.

(** An armed interval means the workflow has settled without a fatal error,
    after its one creation request, and the callback closed over the record
    that is cached now. *)
Lemma armed_facts (s : page) (t : value) :
  consistent s -> orderly s -> interval s = Some t ->
  t = task (cells s) /\ falsy (task (cells s)) = false
  /\ workflow s = Settled /\ error (cells s) = JNull /\ creations_issued s = 1.
Proof.
  intros Hcons (_ & _ & _ & _ & _ & Herr & _ & Htask & _ & _) Harmed.
  pose proof Hcons as [_ Hwf].
  apply (consistent_armed s t Hcons) in Harmed.
  apply pollingEffect_armed in Harmed as (-> & Htruthy & _).
  assert (task (cells s) <> JNull) as Hrecord.
  { intros Hnull. by rewrite Hnull in Htruthy. }
  repeat split; try done.
  - destruct (workflow s) eqn:Hw; [| | done]; by destruct Hwf.
  - by destruct Herr as [? | (_ & ? & _)].
  - by apply Htask.
Qed.

(** The same for a poll in flight. *)
Lemma in_flight_facts (s : page) (n : nat) (id : value) :
  consistent s -> orderly s -> in_flight s !! n = Some id ->
  workflow s = Settled /\ error (cells s) = JNull
  /\ creations_issued s = 1 /\ n < polls_issued s.
Proof.
  intros [_ Hwf] (_ & _ & _ & _ & _ & Herr & _ & _ & Hkeys & Hissued) Hn.
  assert (in_flight s <> ∅) as Hsome.
  { intros Hempty. rewrite Hempty in Hn. by rewrite lookup_empty in Hn. }
  assert (n < polls_issued s) as Hlt by (apply Hkeys; by exists id).
  repeat split; try done.
  - destruct (workflow s) eqn:Hw; [| | done]; by destruct Hwf.
  - by destruct Herr as [? | (_ & _ & _ & ?)].
  - apply Hissued. lia.
Qed.

Lemma orderly_unmounted (s : page) : orderly s -> orderly (unmounted s).
Proof.
  intros (HJ & HC & Hle & Hinit & Hpre & Herr & Hpoll & Htask & Hkeys & Hissued).
  unfold orderly, unmounted; cbn.
  refine (conj HJ (conj HC (conj Hle (conj Hinit (conj Hpre
            (conj _ (conj Hpoll (conj Htask (conj _ Hissued))))))))).
  - destruct Herr as [? | (? & ? & ? & _)]; [by left | by right].
  - intros n [x Hx]. by rewrite lookup_empty in Hx.
Qed.

Lemma orderly_commit (s : page) : orderly s -> orderly (commit s).
Proof.
  intros Hord. destruct (commit_cases s) as [[-> _] | [-> _]]; [done |].
  by apply orderly_unmounted.
Qed.

Lemma orderly_step (s s' : page) (e : event) :
  consistent s -> orderly s -> step s e = Some s' -> orderly s'.
Proof.
  intros Hcons Hord Hstep.
  pose proof Hcons as [_ Hwf].
  pose proof Hord as (HJ & HC & Hle & Hinit & Hpre & Herr & Hpoll & Htask & Hkeys & Hissued).
  destruct e as [d|err|d|err| |n d|n err].
  - (* getJobById resolved *)
    simpl in Hstep. destruct (workflow s) eqn:Hw; try discriminate.
    injection Hstep as <-.
    destruct HJ as [Hc Hj]; [done |]. destruct Hpre as [He Hp]; [done |].
    destruct Hwf as [Ht Hf]; [done |].
    unfold orderly; simpl. rewrite Hc, He, Hp, Ht.
    repeat split; try done; try lia; auto.
    + intros _. by apply Hinit.
    + intros k Hk. rewrite Hf in Hk. destruct Hk as [x Hx].
      by rewrite lookup_empty in Hx.
  - (* getJobById rejected *)
    simpl in Hstep. destruct (workflow s) eqn:Hw; try discriminate.
    injection Hstep as <-. apply orderly_commit.
    destruct HJ as [Hc Hj]; [done |]. destruct Hpre as [He Hp]; [done |].
    destruct Hwf as [Ht Hf]; [done |].
    unfold orderly; simpl. rewrite Hc, Hp, Ht, Hf.
    repeat split; try done; try lia; auto.
    + right. split; [by apply or_else_truthy | done].
    + intros k [x Hx]. by rewrite lookup_empty in Hx.
  - (* createAnalysisTask resolved *)
    simpl in Hstep. destruct (workflow s) eqn:Hw; try discriminate.
    injection Hstep as <-. apply orderly_commit. specialize (HC eq_refl).
    destruct Hpre as [He Hp]; [done |]. destruct Hwf as [Ht Hf]; [done |].
    unfold orderly; simpl. rewrite HC, He, Hp, Hf.
    repeat split; try done; try lia; auto.
    intros k [x Hx]. by rewrite lookup_empty in Hx.
  - (* createAnalysisTask rejected *)
    simpl in Hstep. destruct (workflow s) eqn:Hw; try discriminate.
    injection Hstep as <-. apply orderly_commit. specialize (HC eq_refl).
    destruct Hpre as [He Hp]; [done |]. destruct Hwf as [Ht Hf]; [done |].
    unfold orderly; simpl. rewrite HC, Hp, Ht, Hf.
    repeat split; try done; try lia; auto.
    + right. split; [by apply or_else_truthy | done].
    + intros k [x Hx]. by rewrite lookup_empty in Hx.
  - (* the interval fires *)
    simpl in Hstep. destruct (interval s) as [t|] eqn:Harmed; try discriminate.
    injection Hstep as <-.
    destruct (armed_facts s t Hcons Hord Harmed) as (_ & _ & Hw & He & Hc).
    unfold orderly; simpl. rewrite Hw, He, Hc.
    repeat split; try done; try lia; auto.
    + intros Hbanner%Hinit. congruence.
    + intros k [x Hx].
      destruct (decide (k = polls_issued s)) as [-> | Hne]; [lia |].
      rewrite lookup_insert_ne in Hx by done.
      assert (k < polls_issued s) by (apply Hkeys; by exists x). lia.
  - (* a poll resolved *)
    destruct (in_flight s !! n) as [id|] eqn:Hn;
      [| by (simpl in Hstep; rewrite Hn in Hstep)].
    rewrite (step_PollResolved s n id d Hn) in Hstep. injection Hstep as <-.
    destruct (in_flight_facts s n id Hcons Hord Hn) as (Hw & He & Hc & Hlt).
    unfold orderly; simpl. rewrite Hw, He, Hc.
    repeat split; try done; try lia; auto.
    + intros Hbanner%Hinit. congruence.
    + intros k [x Hx]. destruct (report_renders d).
      * destruct (decide (k = n)) as [-> | Hne].
        -- by rewrite lookup_delete_eq in Hx.
        -- rewrite lookup_delete_ne in Hx by done. apply Hkeys. by exists x.
      * by rewrite lookup_empty in Hx.
  - (* a poll rejected *)
    simpl in Hstep.
    destruct (in_flight s !! n) as [id|] eqn:Hn; try discriminate.
    injection Hstep as <-.
    destruct (in_flight_facts s n id Hcons Hord Hn) as (Hw & He & Hc & Hlt).
    unfold orderly; simpl. rewrite Hw, He, Hc.
    repeat split; try done; try lia; auto.
    + intros Hbanner%Hinit. congruence.
    + intros k [x Hx]. destruct (decide (k = n)) as [-> | Hne].
      * by rewrite lookup_delete_eq in Hx.
      * rewrite lookup_delete_ne in Hx by done. apply Hkeys. by exists x.
Qed.

Lemma orderly_run (events : list event) (s s' : page) :
  consistent s -> orderly s -> run s events = Some s' -> orderly s'.
Proof.
  revert s. induction events as [|e rest IH]; intros s Hcons Hord; simpl.
  - by intros [= <-].
  - destruct (step s e) as [s1|] eqn:Hstep; [| discriminate].
    apply IH.
    + by apply (consistent_step s s1 e).
    + by apply (orderly_step s s1 e).
Qed.

Lemma reachable_orderly (s : page) : reachable s -> orderly s.
Proof.
  intros [events Hrun].
  exact (orderly_run events mount s consistent_mount orderly_mount Hrun).
Qed.

(** Whether the status line renders does not depend on the record: its text
    is the polling error or a message of the derivation, a string. *)
Lemma status_line_renders (task pollingError : value) :
  renderable (text (AnalysisStatus task pollingError))
  = (if truthy pollingError then renderable pollingError else true).
Proof. unfold AnalysisStatus. by destruct (truthy pollingError). Qed.

(** Changing the polling error to [null] or to a string keeps a render that
    succeeded a success. *)
Lemma render_setPollingError (h : hooks) (v : value) :
  renderable v = true ->
  render h <> RenderThrows -> render (setPollingError v h) <> RenderThrows.
Proof.
  intros Hv. unfold render, details_render. cbn.
  rewrite !status_line_renders, Hv.
  destruct (isInitializing h); [done |].
  destruct (truthy (error h)); [done |].
  destruct (renderable (opt_get (job h) "job_id")),
           (renderable (opt_get (job h) "status")),
           (renderable (opt_get (job h) "subclient")),
           (report_renders (task h)), (truthy v),
           (truthy (pollingError h)), (renderable (pollingError h));
    cbn; congruence.
Qed.

(** On a details view that rendered, replacing the record makes the render
    throw exactly when the report of the new record does not render. *)
Lemma render_setTask (h : hooks) (d : value) :
  isInitializing h = false -> truthy (error h) = false ->
  render h <> RenderThrows ->
  (render (setTask d h) = RenderThrows <-> report_renders d = false).
Proof.
  intros Hbanner Herror. unfold render, details_render. cbn.
  rewrite !status_line_renders, Hbanner, Herror.
  destruct (renderable (opt_get (job h) "job_id")),
           (renderable (opt_get (job h) "status")),
           (renderable (opt_get (job h) "subclient")),
           (report_renders (task h)), (report_renders d),
           (truthy (pollingError h)), (renderable (pollingError h));
    cbn; intros Hbefore; split; congruence.
Qed.

Lemma live_renders_mount : live_renders mount.
Proof. intros [[t Ht] | Hflying]; [discriminate | done]. Qed.

Lemma live_renders_commit (s : page) : live_renders (commit s).
Proof.
  destruct (commit_cases s) as [[-> Hok] | [-> _]]; [by intros _ |].
  intros [[t Ht] | Hflying]; [discriminate | done].
Qed.

Lemma live_renders_step (s s' : page) (e : event) :
  consistent s -> orderly s -> live_renders s ->
  step s e = Some s' -> live_renders s'.
Proof.
  intros Hcons Hord Hlive Hstep.
  destruct e as [d|err|d|err| |n d|n err].
  - (* getJobById resolved: still nothing armed, nothing in flight *)
    simpl in Hstep. destruct (workflow s) eqn:Hw; try discriminate.
    injection Hstep as <-.
    destruct (consistent_pending s Hcons) as (_ & Hempty & Hnone);
      [by rewrite Hw |].
    intros [[t Ht] | Hflying]; cbn in *; congruence.
  - simpl in Hstep. destruct (workflow s); try discriminate.
    injection Hstep as <-. apply live_renders_commit.
  - simpl in Hstep. destruct (workflow s); try discriminate.
    injection Hstep as <-. apply live_renders_commit.
  - simpl in Hstep. destruct (workflow s); try discriminate.
    injection Hstep as <-. apply live_renders_commit.
  - (* the interval fires *)
    destruct (interval s) as [t|] eqn:Harmed;
      [| by rewrite step_Tick_unarmed in Hstep].
    rewrite (step_Tick s t Harmed) in Hstep. injection Hstep as <-.
    intros _. cbn. apply render_setPollingError; [done |].
    apply Hlive. left. by rewrite Harmed.
  - (* a poll resolved *)
    destruct (in_flight s !! n) as [id|] eqn:Hn;
      [| by (simpl in Hstep; rewrite Hn in Hstep)].
    rewrite (step_PollResolved s n id d Hn) in Hstep. injection Hstep as <-.
    assert (in_flight s <> ∅) as Hsome.
    { intros Hempty. rewrite Hempty in Hn. by rewrite lookup_empty in Hn. }
    destruct (in_flight_facts s n id Hcons Hord Hn) as (Hw & He & _).
    destruct Hord as (_ & _ & _ & Hinit & _).
    assert (isInitializing (cells s) = false) as Hbanner.
    { destruct (isInitializing (cells s)); [| done].
      by destruct (proj1 Hinit eq_refl). }
    cbn. destruct (report_renders d) eqn:Hreport.
    + intros _ Hthrows.
      apply (render_setTask (cells s) d) in Hthrows; try done; [congruence | |].
      * by rewrite He.
      * apply Hlive. by right.
    + intros [Harmed | Hflying]; [| done].
      rewrite (report_fails_unarmed d Hreport) in Harmed. by destruct Harmed.
  - (* a poll rejected *)
    destruct (in_flight s !! n) as [id|] eqn:Hn;
      [| by (simpl in Hstep; rewrite Hn in Hstep)].
    rewrite (step_PollRejected s n id err Hn) in Hstep. injection Hstep as <-.
    assert (in_flight s <> ∅) as Hsome.
    { intros Hempty. rewrite Hempty in Hn. by rewrite lookup_empty in Hn. }
    intros _. cbn. apply render_setPollingError; [done |].
    apply Hlive. by right.
Qed.

Lemma live_renders_run (events : list event) (s s' : page) :
  consistent s -> orderly s -> live_renders s ->
  run s events = Some s' -> live_renders s'.
Proof.
  revert s. induction events as [|e rest IH]; intros s Hcons Hord Hlive; simpl.
  - by intros [= <-].
  - destruct (step s e) as [s1|] eqn:Hstep; [| discriminate].
    apply IH.
    + by apply (consistent_step s s1 e).
    + by apply (orderly_step s s1 e).
    + by apply (live_renders_step s s1 e).
Qed.

Lemma reachable_live_renders (s : page) : reachable s -> live_renders s.
Proof.
  intros [events Hrun].
  exact (live_renders_run events mount s consistent_mount orderly_mount
           live_renders_mount Hrun).
Qed.

(** The step of a resolved poll decides on the report alone whether the
    render throws.  On a reachable page that is the render of the whole view:
    a page with a poll in flight shows the details view, which rendered, and
    the new record changes nothing of it but the status line and the report. *)
Lemma poll_render_exact (s : page) (n : nat) (id d : value) :
  reachable s ->
  in_flight s !! n = Some id ->
  (render (setTask d (cells s)) = RenderThrows <-> report_renders d = false).
Proof.
  intros Hreach Hn.
  pose proof (reachable_consistent s Hreach) as Hcons.
  pose proof (reachable_orderly s Hreach) as Hord.
  destruct (in_flight_facts s n id Hcons Hord Hn) as (Hw & He & _).
  destruct Hord as (_ & _ & _ & Hinit & _).
  apply render_setTask.
  - destruct (isInitializing (cells s)); [| done].
    by destruct (proj1 Hinit eq_refl).
  - by rewrite He.
  - apply (reachable_live_renders s Hreach). right.
    intros Hempty. rewrite Hempty in Hn. by rewrite lookup_empty in Hn.
Qed.

(** In the same way a tick or a rejected poll, which the step does not follow
    by a render check, cannot make the render throw. *)
Lemma polling_error_render_exact (s : page) (v : value) :
  reachable s ->
  is_Some (interval s) \/ in_flight s <> ∅ ->
  v = JNull \/ v = connectionLost ->
  render (setPollingError v (cells s)) <> RenderThrows.
Proof.
  intros Hreach Hlive Hv. apply render_setPollingError.
  - by destruct Hv as [-> | ->].
  - by apply (reachable_live_renders s Hreach).
Qed.

(* ===================================================================== *)
(** ** More properties of the page *)
(* ===================================================================== *)

(** X9: when [getJobById] rejects, [createAnalysisTask] is never called: the
    error is stored and shown in the error box whenever React can render it
    as a child (the render throws otherwise), the page holds no job and no
    task, has sent no creation request and no poll, and nothing can happen to
    it any more. *)
Theorem job_fetch_failure_sends_no_creation (err : gmap string value) :
  exists s,
    run mount [JobRejected err] = Some s
    /\ creations_issued s = 0
    /\ polls_issued s = 0
    /\ truthy (error (cells s)) = true
    /\ render (cells s)
       = (if renderable (error (cells s)) then ErrorBox (error (cells s))
          else RenderThrows)
    /\ job (cells s) = JNull
    /\ task (cells s) = JNull
    /\ (forall e, step s e = None).
Proof.
  destruct (settle_failed (cells mount) err 0 0)
    as (_ & Hshown & Hrender & Htask & Hjob & _ & Hpolls & Hcreations & Hrest).
  exists (commit (Page (workflowFailed err (cells mount)) None Settled ∅ 0 0)).
  split; [reflexivity |]. by repeat split.
Qed.

(** X10: the creation request is sent at most once on a mounted page: not
    before the job has been fetched, and exactly once before any record is
    cached or any poll is issued. *)
Theorem creation_sent_at_most_once (s : page) :
  reachable s ->
  creations_issued s <= 1
  /\ (workflow s = AwaitJob -> creations_issued s = 0)
  /\ (task (cells s) <> JNull -> creations_issued s = 1)
  /\ (0 < polls_issued s -> creations_issued s = 1).
Proof.
  intros (HJ & _ & Hle & _ & _ & _ & _ & Htask & _ & Hissued)%reachable_orderly.
  repeat split; try done. intros Hw. by destruct (HJ Hw).
Qed.

Lemma creation_sent_at_most_once_witness :
  reachable Samples.finished_page
  /\ polls_issued Samples.finished_page = 1
  /\ creations_issued Samples.finished_page = 1.
Proof.
  assert (reachable Samples.finished_page) as Hreach.
  { exists (Samples.polling
            ++ [Tick; PollResolved 0 Samples.finalized_with_report]).
    reflexivity. }
  split; [exact Hreach |]. split; [reflexivity |].
  apply (creation_sent_at_most_once Samples.finished_page Hreach).
  vm_compute. lia.
Defined.

(** X11: the page shows "Initializing analysis..." exactly until the start-up
    workflow has settled, and until then it caches no record, arms no
    interval and issues no poll. *)
Theorem banner_until_settled (s : page) :
  reachable s ->
  (render (cells s) = InitializingBanner <-> workflow s <> Settled)
  /\ (workflow s <> Settled ->
      task (cells s) = JNull /\ interval s = None
      /\ polls_issued s = 0 /\ step s Tick = None).
Proof.
  intros Hreach.
  pose proof (reachable_consistent s Hreach) as [Hint Hwf].
  pose proof (reachable_orderly s Hreach)
    as (_ & _ & _ & Hinit & Hpre & _ & _ & _ & _ & _).
  split.
  - rewrite <- Hinit. unfold render.
    destruct (isInitializing (cells s)); [done |].
    split; [| done]. by repeat case_match.
  - intros Hw. destruct (Hpre Hw) as [_ Hpolls].
    destruct (consistent_pending s (reachable_consistent s Hreach) Hw)
      as (Htask & _ & Hnone).
    repeat split; try done. by apply step_Tick_unarmed.
Qed.

Lemma banner_until_settled_witness :
  reachable mount
  /\ render (cells mount) = InitializingBanner
  /\ step mount Tick = None.
Proof.
  assert (reachable mount) as Hreach by (by exists []).
  destruct (banner_until_settled mount Hreach) as [Hbanner Hquiet].
  split; [exact Hreach |]. split.
  - apply Hbanner. discriminate.
  - apply Hquiet. discriminate.
Defined.

(** X12: a fatal error and a task never coexist.  On a page whose [error] is
    truthy no record is cached, no poll was ever issued or is in flight, the
    error box is what is rendered whenever React can render the error as a
    child (the render throws otherwise), and no event can occur any more; and
    [error] is never anything but [null] or a truthy value. *)
Theorem fatal_error_excludes_polling (s : page) :
  reachable s ->
  (error (cells s) = JNull \/ truthy (error (cells s)) = true)
  /\ (truthy (error (cells s)) = true ->
      task (cells s) = JNull
      /\ polls_issued s = 0
      /\ in_flight s = ∅
      /\ render (cells s)
         = (if renderable (error (cells s)) then ErrorBox (error (cells s))
            else RenderThrows)
      /\ forall e, step s e = None).
Proof.
  intros Hreach.
  pose proof (reachable_consistent s Hreach) as [Hint Hwf].
  pose proof (reachable_orderly s Hreach)
    as (_ & _ & _ & Hinit & Hpre & Herr & _ & _ & _ & _).
  split.
  - destruct Herr as [? | [? _]]; [by left | by right].
  - intros Hshown.
    destruct Herr as [Hnull | (_ & Htask & Hpolls & Hempty)].
    { by rewrite Hnull in Hshown. }
    assert (workflow s = Settled) as Hsettled.
    { destruct (workflow s) eqn:Hw; [| | done].
      - destruct Hpre as [Hnull _]; [done |]. by rewrite Hnull in Hshown.
      - destruct Hpre as [Hnull _]; [done |]. by rewrite Hnull in Hshown. }
    assert (isInitializing (cells s) = false) as Hbanner.
    { destruct (isInitializing (cells s)); [| done].
      by destruct (proj1 Hinit eq_refl). }
    repeat split; try done.
    + unfold render. by rewrite Hbanner, Hshown.
    + apply at_rest; try done.
      destruct Hint as [Hint | [Hnone _]]; [| done]. by rewrite Hint, Htask.
Qed.

Lemma fatal_error_excludes_polling_witness :
  let failed_page :=
    default mount
      (run mount [JobResolved Samples.some_job; CreateRejected Samples.not_found]) in
  reachable failed_page
  /\ error (cells failed_page) = JStr "Job not found"
  /\ task (cells failed_page) = JNull
  /\ polls_issued failed_page = 0.
Proof.
  intros failed_page.
  assert (reachable failed_page) as Hreach.
  { exists [JobResolved Samples.some_job; CreateRejected Samples.not_found].
    reflexivity. }
  destruct (fatal_error_excludes_polling failed_page Hreach) as [_ Hfatal].
  destruct (Hfatal eq_refl) as (Htask & Hpolls & _).
  split; [exact Hreach |]. split; [reflexivity |]. by split.
Defined.

(** X13: the polling error is never anything but [null] or the one "connection
    lost" message, so the status line of a reachable page is either the yellow
    warning with that message or the display derived from the cached
    record. *)
Theorem polling_error_is_null_or_message (s : page) :
  reachable s ->
  (pollingError (cells s) = JNull \/ pollingError (cells s) = connectionLost)
  /\ (AnalysisStatus (task (cells s)) (pollingError (cells s))
      = Line "text-yellow-600" WarningIcon connectionLost
      \/ AnalysisStatus (task (cells s)) (pollingError (cells s))
         = let d := deriveTaskDisplayState (task (cells s)) in
           Line (getStatusClasses (status d)) (getIcon (status d))
                (JStr (message d))).
Proof.
  intros (_ & _ & _ & _ & _ & _ & Hpoll & _)%reachable_orderly.
  split; [exact Hpoll |].
  destruct Hpoll as [-> | ->]; [by right | by left].
Qed.

Lemma polling_error_is_null_or_message_witness :
  reachable Samples.polling_page
  /\ pollingError (cells Samples.polling_page) = JNull.
Proof.
  assert (reachable Samples.polling_page) as Hreach.
  { exists Samples.polling. reflexivity. }
  split; [exact Hreach |].
  destruct (proj1 (polling_error_is_null_or_message Samples.polling_page Hreach))
    as [Hnull | Hlost]; [exact Hnull | discriminate Hlost].
Defined.

(** X14: the interval callback never runs on a stale closure: whenever an
    interval is armed its callback closed over the record that is cached now,
    so a tick asks for the [id] of that record, under a number no poll in
    flight carries. *)
Theorem tick_asks_for_cached_record (s : page) (t : value) :
  reachable s ->
  interval s = Some t ->
  t = task (cells s)
  /\ in_flight s !! polls_issued s = None
  /\ exists s',
      step s Tick = Some s'
      /\ in_flight s' !! polls_issued s = Some (get (task (cells s)) "id")
      /\ forall n, n <> polls_issued s -> in_flight s' !! n = in_flight s !! n.
Proof.
  intros Hreach Harmed.
  pose proof (reachable_consistent s Hreach) as Hcons.
  pose proof (reachable_orderly s Hreach) as Hord.
  destruct (armed_facts s t Hcons Hord Harmed) as (-> & _).
  destruct Hord as (_ & _ & _ & _ & _ & _ & _ & _ & Hkeys & _).
  split; [done |]. split.
  - destruct (in_flight s !! polls_issued s) as [id|] eqn:Hn; [| done].
    assert (polls_issued s < polls_issued s) by (apply Hkeys; by exists id). lia.
  - eexists. split; [by apply step_Tick |]. split.
    + apply lookup_insert_eq.
    + intros n Hne. simpl. by rewrite lookup_insert_ne.
Qed.

Lemma tick_asks_for_cached_record_witness :
  reachable Samples.polling_page
  /\ interval Samples.polling_page = Some Samples.pending
  /\ exists s',
      step Samples.polling_page Tick = Some s'
      /\ in_flight s' !! 0 = Some Samples.number_one.
Proof.
  assert (reachable Samples.polling_page) as Hreach.
  { exists Samples.polling. reflexivity. }
  split; [exact Hreach |]. split; [reflexivity |].
  destruct (tick_asks_for_cached_record Samples.polling_page Samples.pending
              Hreach eq_refl) as (_ & _ & s' & Hstep & Hid & _).
  exists s'. split; [exact Hstep | exact Hid].
Defined.

(** X15: when the creation call answers with a body the polling effect arms
    nothing on (an empty or otherwise falsy body, or a record that is already
    ['finalized'] or ['failed']), that body is cached and the page never
    issues a poll.  The details view is what is rendered exactly when its
    children render (the job's fields and, for a final record, the report);
    the render throws otherwise. *)
Theorem creation_with_final_or_empty_body_never_polls (jobData data : value) :
  falsy data = true \/ is_terminal data = true ->
  exists s,
    run mount [JobResolved jobData; CreateResolved data] = Some s
    /\ task (cells s) = data
    /\ job (cells s) = jobData
    /\ render (cells s)
       = (if details_render (cells s) then Details jobData data JNull
          else RenderThrows)
    /\ interval s = None
    /\ polls_issued s = 0
    /\ (forall e, step s e = None).
Proof.
  intros Hdata.
  assert (pollingEffect data = None) as Hnone.
  { unfold pollingEffect. destruct Hdata as [-> | ->]; [done |].
    by destruct (falsy data). }
  exists (commit (Page (setIsInitializing false
                          (setTask data (setJob jobData (cells mount))))
                       (pollingEffect data) Settled ∅ 0 1)).
  split; [reflexivity |].
  rewrite cells_commit, polls_issued_commit.
  rewrite interval_commit_None by exact Hnone.
  do 5 (split; [reflexivity |]).
  apply at_rest.
  - by rewrite workflow_commit.
  - by apply interval_commit_None.
  - by apply in_flight_commit_empty.
Qed.

Lemma creation_with_final_or_empty_body_never_polls_witness :
  falsy (JStr "") = true
  /\ is_terminal Samples.failed = true
  /\ (exists s,
        run mount [JobResolved Samples.some_job; CreateResolved (JStr "")] = Some s
        /\ status (deriveTaskDisplayState (task (cells s))) = "initializing"
        /\ polls_issued s = 0)
  /\ (exists s,
        run mount [JobResolved Samples.some_job; CreateResolved Samples.failed]
        = Some s
        /\ task (cells s) = Samples.failed
        /\ polls_issued s = 0).
Proof.
  split; [reflexivity |]. split; [reflexivity |]. split.
  - destruct (creation_with_final_or_empty_body_never_polls
                Samples.some_job (JStr "") (or_introl eq_refl))
      as (s & Hrun & Htask & _ & _ & _ & Hpolls & _).
    exists s. split; [exact Hrun |]. split; [| exact Hpolls].
    exact (f_equal (fun v => status (deriveTaskDisplayState v)) Htask).
  - destruct (creation_with_final_or_empty_body_never_polls
                Samples.some_job Samples.failed (or_intror eq_refl))
      as (s & Hrun & Htask & _ & _ & _ & Hpolls & _).
    exists s. by repeat split.
Defined.

Lemma run_app (s s1 : page) (before after : list event) :
  run s before = Some s1 -> run s (before ++ after) = run s1 after.
Proof.
  revert s. induction before as [|e rest IH]; intros s; simpl.
  - by intros [= ->].
  - destruct (step s e) as [s0|]; [apply IH | discriminate].
Qed.

(** One tick answered before anything else happens. *)
Lemma poll_round (s : page) (t d : value) :
  interval s = Some t ->
  exists s1,
    run s [Tick; PollResolved (polls_issued s) d] = Some s1
    /\ cells s1
       = Hooks (job (cells s)) d (isInitializing (cells s)) (error (cells s)) JNull
    /\ interval s1 = pollingEffect d
    /\ polls_issued s1 = S (polls_issued s)
    /\ creations_issued s1 = creations_issued s.
Proof.
  intros Harmed. unfold run.
  rewrite (step_Tick s t Harmed).
  erewrite step_PollResolved by apply lookup_insert_eq.
  eexists. split; [reflexivity |]. by repeat split.
Qed.

(** X16: polls that do not overlap compose.  From a page with an armed
    interval, any number of ticks each answered in turn by a record that is
    truthy and not terminal, followed by one tick answered by any record,
    leave that last record cached with no polling error, have issued exactly
    one fetch per tick, and leave the interval armed or not as the last record
    asks for; [job], [error] and [isInitializing] are as before. *)
Theorem sequential_polling (records : list value) (last : value) (s : page) (t : value) :
  interval s = Some t ->
  Forall (fun d => falsy d = false /\ is_terminal d = false) records ->
  exists s',
    run s (sequential (polls_issued s) (records ++ [last])) = Some s'
    /\ cells s'
       = Hooks (job (cells s)) last (isInitializing (cells s)) (error (cells s))
               JNull
    /\ interval s' = pollingEffect last
    /\ polls_issued s' = polls_issued s + length records + 1
    /\ creations_issued s' = creations_issued s.
Proof.
  revert s t. induction records as [|d rest IH]; intros s t Harmed Hrecords.
  - destruct (poll_round s t last Harmed) as (s1 & Hrun & Hcells & Hint & Hpolls & Hcre).
    exists s1. simpl in *. repeat split; try done. lia.
  - apply Forall_cons in Hrecords as [[Htruthy Hopen] Hrest].
    destruct (poll_round s t d Harmed) as (s1 & Hrun & Hcells & Hint & Hpolls & Hcre).
    assert (interval s1 = Some d) as Harmed1.
    { rewrite Hint. unfold pollingEffect. by rewrite Htruthy, Hopen. }
    destruct (IH s1 d Harmed1 Hrest) as (s' & Hrun' & Hcells' & Hint' & Hpolls' & Hcre').
    exists s'. split.
    + change (sequential (polls_issued s) ((d :: rest) ++ [last]))
        with ([Tick; PollResolved (polls_issued s) d]
              ++ sequential (S (polls_issued s)) (rest ++ [last])).
      rewrite (run_app s s1 _ _ Hrun). by rewrite <- Hpolls.
    + rewrite Hcells', Hcells, Hint', Hpolls', Hpolls, Hcre', Hcre. simpl.
      repeat split; try done. lia.
Qed.

Lemma sequential_polling_witness :
  interval Samples.polling_page = Some Samples.pending
  /\ exists s',
      run Samples.polling_page
          [Tick; PollResolved 0 Samples.processing;
           Tick; PollResolved 1 Samples.complete_insufficient;
           Tick; PollResolved 2 Samples.finalized_with_report] = Some s'
      /\ task (cells s') = Samples.finalized_with_report
      /\ interval s' = None
      /\ polls_issued s' = 3.
Proof.
  split; [reflexivity |].
  destruct (sequential_polling
              [Samples.processing; Samples.complete_insufficient]
              Samples.finalized_with_report Samples.polling_page Samples.pending
              eq_refl)
    as (s' & Hrun & Hcells & Hint & Hpolls & _).
  { repeat constructor. }
  exists s'. split; [exact Hrun |]. split; [exact (f_equal task Hcells) |].
  split; [exact Hint | exact Hpolls].
Defined.

(** X17: a rejected poll can hide the final result for good.  When two polls
    overlap, the earlier one is rejected and the later one then brings a
    terminal record, that record is cached and the interval is cleared, but no
    tick is left to clear the polling error: the status line keeps showing the
    "connection lost" warning, and if no other poll was in flight nothing can
    happen to the page any more. *)
Theorem warning_outlives_final_record (s : page) (t err data : value) :
  reachable s ->
  interval s = Some t ->
  is_terminal data = true ->
  exists s',
    run s [Tick; Tick; PollRejected (polls_issued s) err;
           PollResolved (S (polls_issued s)) data] = Some s'
    /\ task (cells s') = data
    /\ AnalysisStatus (task (cells s')) (pollingError (cells s'))
       = Line "text-yellow-600" WarningIcon connectionLost
    /\ interval s' = None
    /\ (in_flight s = ∅ -> forall e, step s' e = None).
Proof.
  intros Hreach Harmed Hterminal.
  pose proof (reachable_consistent s Hreach) as Hcons.
  pose proof (reachable_orderly s Hreach) as Hord.
  destruct (armed_facts s t Hcons Hord Harmed) as (_ & _ & Hsettled & _).
  unfold run.
  rewrite (step_Tick s t Harmed).
  rewrite (step_Tick _ t) by exact Harmed.
  cbn [polls_issued in_flight cells interval workflow creations_issued].
  erewrite step_PollRejected; cycle 1.
  { cbn [in_flight]. rewrite lookup_insert_ne by lia. apply lookup_insert_eq. }
  cbn [polls_issued in_flight cells interval workflow creations_issued].
  erewrite step_PollResolved; cycle 1.
  { cbn [in_flight]. rewrite lookup_delete_ne by lia. apply lookup_insert_eq. }
  eexists. split; [reflexivity |].
  cbn [polls_issued in_flight cells interval workflow creations_issued].
  assert (pollingEffect data = None) as Hnone by (by apply pollingEffect_terminal).
  split; [reflexivity |]. split; [reflexivity |]. split; [exact Hnone |].
  intros Hempty. apply at_rest; cbn; try done.
  destruct (report_renders data); [| done].
  rewrite Hempty.
  rewrite (delete_insert_ne _ (polls_issued s) (S (polls_issued s))) by lia.
  by rewrite !delete_insert_eq, !delete_empty.
Qed.

Lemma warning_outlives_final_record_witness :
  reachable Samples.polling_page
  /\ interval Samples.polling_page = Some Samples.pending
  /\ is_terminal Samples.finalized_with_report = true
  /\ exists s',
      run Samples.polling_page
          [Tick; Tick; PollRejected 0 (JObj Samples.network_error);
           PollResolved 1 Samples.finalized_with_report] = Some s'
      /\ glyph (AnalysisStatus (task (cells s')) (pollingError (cells s')))
         = WarningIcon
      /\ forall e, step s' e = None.
Proof.
  assert (reachable Samples.polling_page) as Hreach.
  { exists Samples.polling. reflexivity. }
  split; [exact Hreach |]. do 2 (split; [reflexivity |]).
  destruct (warning_outlives_final_record Samples.polling_page Samples.pending
              (JObj Samples.network_error) Samples.finalized_with_report
              Hreach eq_refl eq_refl)
    as (s' & Hrun & _ & Hline & _ & Hrest).
  exists s'. split; [exact Hrun |]. split.
  - exact (f_equal glyph Hline).
  - apply Hrest. reflexivity.
Defined.

(* ===================================================================== *)
(** ** Properties of the request interceptor *)
(* ===================================================================== *)

(** X18: with a stored, non-empty token the interceptor makes the
    [Authorization] header "Bearer " followed by the token, replacing whatever
    was there; without one (none stored, or the empty string) it leaves the
    headers as they are, an [Authorization] header already present included.
    No other header is ever touched, and running it twice is the same as
    running it once. *)
Theorem interceptor_sets_bearer_token (token : option string) (headers : gmap string string) :
  (forall t, token = Some t -> t <> "" ->
             withAuthorization token headers !! "Authorization"
             = Some (String.append "Bearer " t))
  /\ (token = None \/ token = Some "" -> withAuthorization token headers = headers)
  /\ (forall name, name <> "Authorization" ->
                   withAuthorization token headers !! name = headers !! name)
  /\ withAuthorization token (withAuthorization token headers)
     = withAuthorization token headers.
Proof.
  unfold withAuthorization. repeat split.
  - intros t -> Hne. apply String.eqb_neq in Hne. rewrite Hne.
    apply lookup_insert_eq.
  - by intros [-> | ->].
  - intros name Hname. destruct token as [t|]; [| done].
    destruct (String.eqb t ""); [done |]. by rewrite lookup_insert_ne.
  - destruct token as [t|]; [| done].
    destruct (String.eqb t ""); [done |]. apply insert_insert_eq.
Qed.
